(** * Inkbird ITH-11-B advertisement parser

    A shallow embedding of [custom_components/inkbird_ith11/parser.py]
    ([_as_bytes] and [parse]) together with the Python built-ins they call,
    and the properties of the decoder stated in the specification.

    Layout:
    - [Py]       : the Python values the parser can meet, exceptions, and the
                   built-ins [bytes(...)], indexing, [int / float], [round(x, 1)];
    - [Exec]     : statements as heap-passing computations with the three
                   ways a Python statement can end (fall through, [return],
                   raise), [try/except] and function call;
    - [Parser]   : [_as_bytes], [parse], and the test harness object
                   [DummyServiceInfo];
    - [Scan]     : the scanning helpers [_find_temperature],
                   [_find_humidity] and [_find_battery];
    - [Objects]  : [_as_bytes] and [parse] on objects that are not
                   built-in data values, whose getters and [__bytes__]
                   may raise anything;
    - the vocabulary of the statements, the lemmas on the fields and on
      the runs of [parse], and the decoder's contract;
    - further properties of [_as_bytes], of [parse] on inputs of any
      type, and of the three scanning helpers;
    - what [parse] catches and what it lets through on arbitrary
      objects. *)

From Stdlib Require Import ZArith List Lia Sorting.Sorted.
From Stdlib Require Import Floats.PrimFloat Floats.SpecFloat Floats.FloatOps Floats.FloatAxioms.
From stdpp Require Import gmap strings list.

Set Warnings "-inexact-float,-register-all".
#[local] Open Scope Z_scope.

(* ===================================================================== *)
(** ** Python values and built-ins *)
(* ===================================================================== *)

Module Py.

(** The values that can reach the parser: Python's built-in data
    values. Objects with special methods of their own ([__bytes__],
    properties) are not among them. Inputs are only read, never mutated,
    so they are plain trees. A [dict] is an insertion-ordered association
    list with integer keys (as in [manufacturer_data : dict[int, bytes]]);
    [bytes(d)] iterates it in that order. A [float] is an IEEE 754
    binary64. *)
Inductive pyval : Type :=
| PyNone
| PyInt (n : Z)
| PyFloat (x : float)
| PyStr (s : string)
| PyBytes (bs : list Byte.byte)
| PyByteArray (bs : list Byte.byte)
| PyList (vs : list pyval)
| PyDict (items : list (Z * pyval)).

(** The exceptions the built-ins below raise. All are subclasses of
    [Exception], which is what [except Exception:] catches. *)
Inductive exn : Type :=
| TypeError
| ValueError
| IndexError
| OverflowError
| ZeroDivisionError.

(** Result of evaluating an expression or calling a function. *)
Inductive outcome (A : Type) : Type :=
| Ok (a : A)
| Err (e : exn).
Arguments Ok {A} a.
Arguments Err {A} e.

#[global] Instance outcome_ret : MRet outcome := @Ok.
#[global] Instance outcome_bind : MBind outcome := λ A B f m,
  match m with
  | Ok a => f a
  | Err e => Err e
  end.

(** [getattr(obj, name, default)] on an object given by its attribute
    table. *)
Definition getattr (obj : gmap string pyval) (name : string) (default : pyval) : pyval :=
  match obj !! name with
  | Some v => v
  | None => default
  end.

(** [k in d] and [d.get(k)] on a dict. *)
Fixpoint dict_lookup (items : list (Z * pyval)) (k : Z) : option pyval :=
  match items with
  | [] => None
  | (k', v) :: rest => if Z.eqb k' k then Some v else dict_lookup rest k
  end.

Definition dict_contains (items : list (Z * pyval)) (k : Z) : bool :=
  match dict_lookup items k with
  | Some _ => true
  | None => false
  end.

Definition dict_get (items : list (Z * pyval)) (k : Z) : pyval :=
  match dict_lookup items k with
  | Some v => v
  | None => PyNone
  end.

(** Truth value of an object, as [if x:] and [x or y] test it. *)
Definition truthy (v : pyval) : bool :=
  match v with
  | PyNone => false
  | PyInt n => negb (Z.eqb n 0)
  | PyFloat x => negb (PrimFloat.is_zero x)
  | PyStr s => negb (Nat.eqb (String.length s) 0)
  | PyBytes bs | PyByteArray bs => negb (Nat.eqb (length bs) 0)
  | PyList vs => negb (Nat.eqb (length vs) 0)
  | PyDict items => negb (Nat.eqb (length items) 0)
  end.

Definition py_or (a b : pyval) : pyval := if truthy a then a else b.

(** The integer a byte holds: [payload[i]] is an [int] in [0, 255]. *)
Definition byte_to_int (b : Byte.byte) : Z := Z.of_N (Byte.to_N b).

(** One element of an iterable handed to [bytes(...)]: it must be an
    integer in [range(256)]. *)
Definition byte_of_int (n : Z) : outcome Byte.byte :=
  if (0 <=? n) && (n <? 256) then
    match Byte.of_N (Z.to_N n) with
    | Some b => Ok b
    | None => Err ValueError
    end
  else Err ValueError.

Definition byte_of_item (v : pyval) : outcome Byte.byte :=
  match v with
  | PyInt n => byte_of_int n
  | _ => Err TypeError
  end.

Fixpoint bytes_of_items (vs : list pyval) : outcome (list Byte.byte) :=
  match vs with
  | [] => Ok []
  | v :: rest =>
      b ← byte_of_item v;
      bs ← bytes_of_items rest;
      Ok (b :: bs)
  end.

(** [sys.maxsize] on a 64-bit build. *)
Definition maxsize : Z := 2 ^ 63 - 1.

(** The longest bytes object: the object header takes 33 of the
    [sys.maxsize] bytes an object may have. *)
Definition max_bytes : Z := maxsize - 33.

(** The constructor [bytes(value)] with one argument: a bytes-like object
    is copied, an integer [n] gives [n] zero bytes, an iterable gives the
    bytes of its elements (a dict iterates over its keys); a string
    without an encoding and anything else is a [TypeError]. A count that
    does not fit an index ([n < -2^63] or [sys.maxsize < n]) is an
    [OverflowError], a negative count a [ValueError], a count above
    [max_bytes] an [OverflowError] again. Memory is not bounded here:
    any count up to [max_bytes] is served, where CPython raises
    [MemoryError] once the allocation fails. *)
Definition py_bytes (value : pyval) : outcome (list Byte.byte) :=
  match value with
  | PyBytes bs | PyByteArray bs => Ok bs
  | PyInt n =>
      if (n <? - 2 ^ 63) || (maxsize <? n) then Err OverflowError
      else if n <? 0 then Err ValueError
      else if max_bytes <? n then Err OverflowError
      else Ok (repeat Byte.x00 (Z.to_nat n))
  | PyList vs => bytes_of_items vs
  | PyDict items => bytes_of_items (map (λ kv, PyInt (fst kv)) items)
  | PyNone | PyFloat _ | PyStr _ => Err TypeError
  end.

(** [payload[i]] for a non-negative literal index [i]. *)
Definition py_getitem (payload : list Byte.byte) (i : nat) : outcome Z :=
  match payload !! i with
  | Some b => Ok (byte_to_int b)
  | None => Err IndexError
  end.

(** [int(x)] of an [int] is that integer. *)
Definition py_int (n : Z) : Z := n.

(** *** Floats *)

(** Conversion of an [int] to the nearest [float] (ties to even). *)
Definition py_float_of_int (n : Z) : float :=
  SF2Prim (binary_normalize prec emax n 0 false).

(** The least magnitude of an [int] that no finite [float] is nearest
    to: halfway between the largest float, [2^1024 - 2^971], and
    [2^1024]. From there on the conversion raises [OverflowError]. *)
Definition float_overflow : Z := 2 ^ 1024 - 2 ^ 970.

(** [n / d] for an [int] [n] and a [float] [d]. *)
Definition py_truediv (n : Z) (d : float) : outcome float :=
  if float_overflow <=? Z.abs n then Err OverflowError
  else if PrimFloat.is_zero d then Err ZeroDivisionError
  else Ok (PrimFloat.div (py_float_of_int n) d).

(** [a / d] rounded to the nearest integer, ties to the even one
    ([0 < d]). *)
Definition round_half_even_div (a d : Z) : Z :=
  let q := a / d in
  match 2 * (a mod d) ?= d with
  | Lt => q
  | Gt => q + 1
  | Eq => if Z.even q then q else q + 1
  end.

(** [round(x, 1)]: the exact value of [x] is rounded half-even to one
    decimal digit, and the float nearest to that decimal is returned
    (CPython goes through a correctly rounded decimal string). A finite
    [x = m * 2^e] with [-3 <= e] is a multiple of 1/8 no smaller than
    2^49 and comes back unchanged; below that, [10 * |x| < 2^53], so the
    tenths count [n] is exact as a float and [n / 10] is correctly
    rounded by the division. Infinities, NaN and zeros are returned
    as they are. *)
Definition py_round1 (x : float) : float :=
  match Prim2SF x with
  | S754_finite s m e =>
      if -3 <=? e then x
      else
        let n := round_half_even_div (10 * Z.pos m) (2 ^ (- e)) in
        let y := PrimFloat.div (py_float_of_int n) (py_float_of_int 10) in
        if s then PrimFloat.opp y else y
  | _ => x
  end.

End Py.
Export Py.

(* ===================================================================== *)
(** ** Statements: heap, control flow, exceptions *)
(* ===================================================================== *)

Module Exec.

(** The dicts [parse] creates are mutable objects. The heap holds them;
    a location is an index into it, and [{}] allocates at the end, so
    locations handed out earlier stay valid and are never reused. *)
Abbreviation loc := nat (only parsing).
Abbreviation heap := (list (gmap string pyval)) (only parsing).

(** How a statement ends: control falls through to the next statement,
    a [return] ran, or an exception propagates. *)
Inductive signal (R A : Type) : Type :=
| Next (a : A)
| Return (r : R)
| Raise (e : exn).
Arguments Next {R A} a.
Arguments Return {R A} r.
Arguments Raise {R A} e.

Definition stmt (R A : Type) : Type := heap → signal R A * heap.

#[global] Instance stmt_ret {R} : MRet (stmt R) := λ A a h, (Next a, h).
#[global] Instance stmt_bind {R} : MBind (stmt R) := λ A B f m h,
  match m h with
  | (Next a, h') => f a h'
  | (Return r, h') => (Return r, h')
  | (Raise e, h') => (Raise e, h')
  end.

(** [return r] *)
Definition return_ {R A} (r : R) : stmt R A := λ h, (Return r, h).

(** An expression evaluated inside a statement. *)
Definition eval {R A} (o : outcome A) : stmt R A := λ h,
  match o with
  | Ok a => (Next a, h)
  | Err e => (Raise e, h)
  end.

(** [if c: body] without an [else] branch. *)
Definition when {R} (c : bool) (body : stmt R unit) : stmt R unit :=
  if c then body else mret tt.

(** [try: body except Exception: handler]. Every exception of [exn] is
    an [Exception]; the heap the handler starts from keeps whatever the
    body wrote before it raised. *)
Definition try_except {R A} (body handler : stmt R A) : stmt R A := λ h,
  match body h with
  | (Raise _, h') => handler h'
  | ended => ended
  end.

(** [{}]: a new empty dict. *)
Definition new_dict {R} : stmt R loc := λ h, (Next (length h), h ++ [∅]).

(** [d[key] = value] *)
Definition dict_setitem {R} (d : loc) (key : string) (value : pyval) : stmt R unit := λ h,
  (Next tt, alter (insert key value) d h).

(** Calling a function whose body ends with a [return] on every path:
    the caller sees the returned value or the exception. *)
Definition call {R} (body : stmt R Empty_set) : heap → outcome R * heap := λ h,
  match body h with
  | (Next a, _) => match a with end
  | (Return r, h') => (Ok r, h')
  | (Raise e, h') => (Err e, h')
  end.

End Exec.
Export Exec.

(* ===================================================================== *)
(** ** parser.py *)
(* ===================================================================== *)

Module Parser.

(** [_as_bytes(value)] *)
Definition _as_bytes (value : pyval) : list Byte.byte :=
  match value with
  | PyNone => []
  | PyBytes bs => bs
  | PyByteArray bs => bs
  | _ =>
      match py_bytes value with
      | Ok bs => bs
      | Err _ => []
      end
  end.

(** The constant [10.0]. *)
Definition ten : float := 10%float.

(** [parse(service_info)]; [service_info] is given by its attributes.
    The returned location is that of the result dict. *)
Definition parse (service_info : gmap string pyval) : heap → outcome loc * heap :=
  call (
    result ← new_dict;
    try_except (
      let mfg := getattr service_info "manufacturer_data" PyNone in
      match mfg with
      | PyDict items =>
          when (dict_contains items 9545) (
            let payload := _as_bytes (dict_get items 9545) in
            when (negb (Nat.eqb (length payload) 0) && (8 <? length payload)%nat) (
              try_except (
                x7 ← eval (py_getitem payload 7);
                x6 ← eval (py_getitem payload 6);
                let raw_hum := Z.shiftl x7 8 + x6 in
                x5 ← eval (py_getitem payload 5);
                x4 ← eval (py_getitem payload 4);
                let raw_temp := Z.shiftl x5 8 + x4 in
                batt ← eval (py_getitem payload 8);
                hum_10 ← eval (py_truediv raw_hum ten);
                let hum := py_round1 hum_10 in
                temp_10 ← eval (py_truediv raw_temp ten);
                let temp := py_round1 temp_10 in
                dict_setitem result "temperature" (PyFloat temp);;
                dict_setitem result "humidity" (PyFloat hum);;
                dict_setitem result "battery" (PyInt (py_int batt));;
                return_ result
              ) (
                d ← new_dict; return_ d
              )))
      | _ => mret tt
      end
    ) (
      d ← new_dict; return_ d
    );;
    d ← new_dict; return_ d
  ).

(** The object the repository's test runner builds
    ([run_parser_tests.py]):
    [DummyServiceInfo(manufacturer_data, service_data, advertisement, address)]. *)
Definition DummyServiceInfo (manufacturer_data service_data advertisement address : pyval)
  : gmap string pyval :=
  <["manufacturer_data" := py_or manufacturer_data (PyDict [])]>
  (<["service_data" := py_or service_data (PyDict [])]>
  (<["advertisement" := advertisement]>
  (<["address" := py_or address (PyStr "aa:bb:cc:dd:ee:ff")]> ∅))).

(** A payload presented under a company id, as the test runner does it:
    [parse(DummyServiceInfo(manufacturer_data={companyId: payload}))]. *)
Definition decode (companyId : Z) (payload : list Byte.byte) : heap → outcome loc * heap :=
  parse (DummyServiceInfo (PyDict [(companyId, PyBytes payload)]) PyNone PyNone PyNone).

(** What the caller reads from the returned dict: its contents in the
    heap the call leaves behind. *)
Definition returned (run : outcome loc * heap) : outcome (gmap string pyval) :=
  match run with
  | (Ok l, h') =>
      match h' !! l with
      | Some d => Ok d
      | None => Err IndexError
      end
  | (Err e, _) => Err e
  end.

End Parser.
Export Parser.

(* ===================================================================== *)
(** ** parser.py: the scanning helpers *)
(* ===================================================================== *)

Module Scan.

(** A [for] loop whose body may [return]: the first iteration that
    returns a value ends the loop with it; an exception ends it too. *)
Fixpoint for_first {A B : Type} (xs : list A) (body : A → outcome (option B))
  : outcome (option B) :=
  match xs with
  | [] => Ok None
  | x :: rest =>
      match body x with
      | Ok (Some r) => Ok (Some r)
      | Ok None => for_first rest body
      | Err e => Err e
      end
  end.

(** [enumerate(payload)]: the index and the integer of each byte. *)
Definition enumerate (payload : list Byte.byte) : list (nat * Z) :=
  imap (λ idx b, (idx, byte_to_int b)) payload.

(** [payload[lo:hi]] for [0 <= lo <= hi]. *)
Definition slice (payload : list Byte.byte) (lo hi : nat) : list Byte.byte :=
  take (hi - lo) (drop lo payload).

Inductive byteorder : Type := Little | Big.

(** The unsigned value of bytes, least significant first. *)
Fixpoint le_value (bs : list Byte.byte) : Z :=
  match bs with
  | [] => 0
  | b :: rest => byte_to_int b + 256 * le_value rest
  end.

(** [int.from_bytes(bs, byteorder=..., signed=...)]: two's complement
    on [8 * len(bs)] bits when signed. *)
Definition int_from_bytes (bs : list Byte.byte) (order : byteorder) (signed : bool) : Z :=
  let u := le_value (match order with Little => bs | Big => reverse bs end) in
  let width := 8 * Z.of_nat (length bs) in
  if signed && (0 <? width) && (2 ^ (width - 1) <=? u) then u - 2 ^ width else u.

(** [round(x, 2)], as [py_round1] with hundredths: a finite
    [x = m * 2^e] with [-6 <= e] is a multiple of 1/64 no smaller than
    2^46 and comes back unchanged; below that [100 * |x| < 2^53]. *)
Definition py_round2 (x : float) : float :=
  match Prim2SF x with
  | S754_finite s m e =>
      if -6 <=? e then x
      else
        let n := round_half_even_div (100 * Z.pos m) (2 ^ (- e)) in
        let y := PrimFloat.div (py_float_of_int n) (py_float_of_int 100) in
        if s then PrimFloat.opp y else y
  | _ => x
  end.

(** [min(xs, key=key)]: the first element whose key is least;
    [ValueError] on an empty sequence. *)
Definition py_min_key {A : Type} (key : A → Z) (xs : list A) : outcome A :=
  match xs with
  | [] => Err ValueError
  | x :: rest => Ok (fold_left (λ best y, if key y <? key best then y else best) rest x)
  end.

(** [_find_temperature(payload)]. The pair [(None, None)] is [None]
    here, a pair [(temp, i)] is [Some (temp, i)]. *)
Definition _find_temperature (payload : list Byte.byte) : outcome (option (float * nat)) :=
  if Nat.eqb (length payload) 0 then Ok None
  else
    for_first (seq 0 (length payload - 1)) (λ i,
      for_first [Little; Big] (λ order,
        for_first [true; false] (λ signed,
          let raw := int_from_bytes (slice payload i (i + 2)) order signed in
          for_first [100%float; 10%float] (λ scale,
            temp ← py_truediv raw scale;
            if PrimFloat.leb (-40)%float temp && PrimFloat.leb temp 85%float
            then Ok (Some (py_round2 temp, i))
            else Ok None)))).

(** [_find_humidity(payload, temp_index)]; [temp_index] is [None] or an
    integer. *)
Definition _find_humidity (payload : list Byte.byte) (temp_index : option Z)
  : outcome (option (Z * nat)) :=
  if Nat.eqb (length payload) 0 then Ok None
  else
    let candidates :=
      List.filter (λ c : nat * Z, (0 <=? c.2) && (c.2 <=? 100) && (3 <? c.2))
                  (enumerate payload) in
    match candidates with
    | [] => Ok None
    | _ =>
        let fallback :=
          let mid := Z.of_nat (length payload) / 2 in
          chosen ← py_min_key (λ t : nat * Z, Z.abs (Z.of_nat t.1 - mid)) candidates;
          Ok (Some (py_int chosen.2, chosen.1)) in
        match temp_index with
        | Some ti =>
            let after := List.filter (λ c : nat * Z, ti <? Z.of_nat c.1) candidates in
            match after with
            | [] => fallback
            | _ =>
                chosen ← py_min_key (λ t : nat * Z, Z.of_nat t.1) after;
                Ok (Some (py_int chosen.2, chosen.1))
            end
        | None => fallback
        end
    end.

(** [_find_battery(payload, temp_index, hum_index)]; the two indices
    are accepted and not used. *)
Definition _find_battery (payload : list Byte.byte) (temp_index hum_index : option Z)
  : outcome (option (Z * nat)) :=
  if Nat.eqb (length payload) 0 then Ok None
  else
    found ← for_first (reverse (seq 0 (length payload))) (λ idx,
              b ← py_getitem payload idx;
              if (10 <=? b) && (b <=? 100) then Ok (Some (py_int b, idx)) else Ok None);
    match found with
    | Some r => Ok (Some r)
    | None =>
        for_first (enumerate payload) (λ '(idx, b),
          if (0 <=? b) && (b <=? 100) then Ok (Some (py_int b, idx)) else Ok None)
    end.

End Scan.
Export Scan.

(* ===================================================================== *)
(** ** parser.py on arbitrary objects *)
(* ===================================================================== *)

(** [parse] and [_as_bytes] once more, for inputs that are not built-in
    data values: an attribute may be a property whose getter raises,
    and a value stored in the dict may be an instance of a user class,
    whose [__bytes__] returns or raises what it likes. What can be
    raised now includes exceptions that are not instances of
    [Exception], which [except Exception:] does not catch. On built-in
    data values this is [Parser.parse] ([Objects.parse_plain] below). *)
Module Objects.

(** An exception, as [except Exception:] and the three-argument
    [getattr] tell them apart. *)
Inductive raised : Type :=
| Builtin (e : exn)
| AttributeError
| UserException (name : string)
| BaseOnly (name : string).

(** [isinstance(r, Exception)]: everything but [KeyboardInterrupt],
    [SystemExit], [GeneratorExit] and user subclasses of [BaseException]
    that do not derive from [Exception]. *)
Definition is_Exception (r : raised) : bool :=
  match r with
  | BaseOnly _ => false
  | _ => true
  end.

Inductive result (A : Type) : Type :=
| Done (a : A)
| Raised (r : raised).
Arguments Done {A} a.
Arguments Raised {A} r.

(** An expression of [Py] evaluated here. *)
Definition lift {A : Type} (o : outcome A) : result A :=
  match o with
  | Ok a => Done a
  | Err e => Raised (Builtin e)
  end.

(** A value stored in a dict: a built-in data value, or an instance of
    a user class (which is not [None], [bytes], [bytearray] or [dict]);
    [on_bytes] is what [bytes(instance)] does. *)
Inductive entry : Type :=
| Data (v : pyval)
| Instance (on_bytes : result (list Byte.byte)).

(** What an attribute of [service_info] is: a built-in data value, a
    dict whose values may be instances, an instance of a user class, or
    a property whose getter raises. *)
Inductive attribute : Type :=
| Value (v : pyval)
| Mapping (items : list (Z * entry))
| Object
| Property (r : raised).

(** [getattr(obj, name, None)]: a missing attribute and a getter that
    raises [AttributeError] give [None]; any other exception of the
    getter propagates. *)
Definition getattr (obj : gmap string attribute) (name : string) : result attribute :=
  match obj !! name with
  | None => Done (Value PyNone)
  | Some (Property AttributeError) => Done (Value PyNone)
  | Some (Property r) => Raised r
  | Some a => Done a
  end.

(** The items of an attribute when [isinstance(mfg, dict)]. *)
Definition as_dict (mfg : attribute) : option (list (Z * entry)) :=
  match mfg with
  | Value (PyDict items) => Some (map (λ kv, (kv.1, Data kv.2)) items)
  | Mapping items => Some items
  | _ => None
  end.

Fixpoint dict_lookup (items : list (Z * entry)) (k : Z) : option entry :=
  match items with
  | [] => None
  | (k', v) :: rest => if Z.eqb k' k then Some v else dict_lookup rest k
  end.

Definition dict_contains (items : list (Z * entry)) (k : Z) : bool :=
  match dict_lookup items k with
  | Some _ => true
  | None => false
  end.

Definition dict_get (items : list (Z * entry)) (k : Z) : entry :=
  match dict_lookup items k with
  | Some v => v
  | None => Data PyNone
  end.

(** [bytes(value)] *)
Definition py_bytes (value : entry) : result (list Byte.byte) :=
  match value with
  | Data v => lift (Py.py_bytes v)
  | Instance on_bytes => on_bytes
  end.

(** [_as_bytes(value)]: its [except Exception:] turns an [Exception]
    into the empty bytes and lets anything else through. *)
Definition _as_bytes (value : entry) : result (list Byte.byte) :=
  match value with
  | Data PyNone => Done []
  | Data (PyBytes bs) => Done bs
  | Data (PyByteArray bs) => Done bs
  | _ =>
      match py_bytes value with
      | Done bs => Done bs
      | Raised r => if is_Exception r then Done [] else Raised r
      end
  end.

(** Statements, as in [Exec], over [raised]. *)
Inductive signal (R A : Type) : Type :=
| Next (a : A)
| Return (r : R)
| Raise (e : raised).
Arguments Next {R A} a.
Arguments Return {R A} r.
Arguments Raise {R A} e.

Definition stmt (R A : Type) : Type := heap → signal R A * heap.

#[global] Instance stmt_ret {R} : MRet (stmt R) := λ A a h, (Next a, h).
#[global] Instance stmt_bind {R} : MBind (stmt R) := λ A B f m h,
  match m h with
  | (Next a, h') => f a h'
  | (Return r, h') => (Return r, h')
  | (Raise e, h') => (Raise e, h')
  end.

Definition return_ {R A} (r : R) : stmt R A := λ h, (Return r, h).

Definition eval {R A} (o : result A) : stmt R A := λ h,
  match o with
  | Done a => (Next a, h)
  | Raised e => (Raise e, h)
  end.

Definition when {R} (c : bool) (body : stmt R unit) : stmt R unit :=
  if c then body else mret tt.

(** [try: body except Exception: handler]: the handler runs for an
    instance of [Exception] only. *)
Definition try_except {R A} (body handler : stmt R A) : stmt R A := λ h,
  match body h with
  | (Raise e, h') => if is_Exception e then handler h' else (Raise e, h')
  | ended => ended
  end.

Definition new_dict {R} : stmt R loc := λ h, (Next (length h), h ++ [∅]).

Definition dict_setitem {R} (d : loc) (key : string) (value : pyval) : stmt R unit := λ h,
  (Next tt, alter (insert key value) d h).

Definition call {R} (body : stmt R Empty_set) : heap → result R * heap := λ h,
  match body h with
  | (Next a, _) => match a with end
  | (Return r, h') => (Done r, h')
  | (Raise e, h') => (Raised e, h')
  end.

(** [parse(service_info)] *)
Definition parse (service_info : gmap string attribute) : heap → result loc * heap :=
  call (
    result ← new_dict;
    try_except (
      mfg ← eval (getattr service_info "manufacturer_data");
      match as_dict mfg with
      | Some items =>
          when (dict_contains items 9545) (
            payload ← eval (_as_bytes (dict_get items 9545));
            when (negb (Nat.eqb (length payload) 0) && (8 <? length payload)%nat) (
              try_except (
                x7 ← eval (lift (py_getitem payload 7));
                x6 ← eval (lift (py_getitem payload 6));
                let raw_hum := Z.shiftl x7 8 + x6 in
                x5 ← eval (lift (py_getitem payload 5));
                x4 ← eval (lift (py_getitem payload 4));
                let raw_temp := Z.shiftl x5 8 + x4 in
                batt ← eval (lift (py_getitem payload 8));
                hum_10 ← eval (lift (py_truediv raw_hum ten));
                let hum := py_round1 hum_10 in
                temp_10 ← eval (lift (py_truediv raw_temp ten));
                let temp := py_round1 temp_10 in
                dict_setitem result "temperature" (PyFloat temp);;
                dict_setitem result "humidity" (PyFloat hum);;
                dict_setitem result "battery" (PyInt (py_int batt));;
                return_ result
              ) (
                d ← new_dict; return_ d
              )))
      | None => mret tt
      end
    ) (
      d ← new_dict; return_ d
    );;
    d ← new_dict; return_ d
  ).

(** A built-in object as an object here. *)
Definition plain (service_info : gmap string pyval) : gmap string attribute :=
  Value <$> service_info.

End Objects.

(* ===================================================================== *)
(** ** What the statements speak of *)
(* ===================================================================== *)

Section Observations.

(** The 16-bit value the source builds with [+]. *)
Definition raw16 (hi lo : Byte.byte) : Z :=
  Z.shiftl (byte_to_int hi) 8 + byte_to_int lo.

(** The same field as the specification writes it, with [|]. *)
Definition spec_raw16 (hi lo : Byte.byte) : Z :=
  Z.lor (Z.shiftl (byte_to_int hi) 8) (byte_to_int lo).

(** A field value scaled to its unit: [round(raw / 10.0, 1)]. *)
Definition scaled (raw : Z) : float :=
  py_round1 (PrimFloat.div (py_float_of_int raw) ten).

(** The payload [parse] gets to look at, if any: the value stored under
    key 9545 of a [manufacturer_data] attribute that is a dict, passed
    through [_as_bytes]. *)
Definition payload_of (service_info : gmap string pyval) : option (list Byte.byte) :=
  match getattr service_info "manufacturer_data" PyNone with
  | PyDict items =>
      match dict_lookup items 9545 with
      | Some v => Some (_as_bytes v)
      | None => None
      end
  | _ => None
  end.

(** The dict [parse] fills on success, in the order of its three
    assignments. *)
Definition reading (temp hum : float) (batt : Z) : gmap string pyval :=
  <["battery" := PyInt batt]>
    (<["humidity" := PyFloat hum]>
      (<["temperature" := PyFloat temp]> ∅)).

(** The five bytes the decoder reads. *)
Record fields : Type := Fields { x4 : Byte.byte; x5 : Byte.byte; x6 : Byte.byte; x7 : Byte.byte; x8 : Byte.byte }.

Definition fields_of (payload : list Byte.byte) : option fields :=
  match payload with
  | _ :: _ :: _ :: _ :: b4 :: b5 :: b6 :: b7 :: b8 :: _ => Some (Fields b4 b5 b6 b7 b8)
  | _ => None
  end.

Definition reading_of (f : fields) : gmap string pyval :=
  reading (scaled (raw16 (x5 f) (x4 f))) (scaled (raw16 (x7 f) (x6 f))) (byte_to_int (x8 f)).

(** The fields [parse] decodes, if it decodes any. *)
Definition decoded (service_info : gmap string pyval) : option fields :=
  match payload_of service_info with
  | Some payload => fields_of payload
  | None => None
  end.

(** Bytes from their integer values. *)
Definition bytes_of (ns : list N) : list Byte.byte :=
  map (λ n, default Byte.x00 (Byte.of_N n)) ns.

(** The two advertisements recorded in [run_parser_tests.py]. *)
Definition payload4 : list Byte.byte :=
  bytes_of [0x02; 0x28; 0x07; 0x5C; 0xA1; 0x00; 0xE7; 0x03; 0x46; 0x00; 0x44; 0x08; 0x00; 0x00; 0x00; 0x00]%N.

Definition payload5 : list Byte.byte :=
  bytes_of [0x02; 0x28; 0x07; 0x5C; 0x9F; 0x00; 0xE7; 0x03; 0x56; 0x00; 0x44; 0x08; 0x00; 0x00; 0x00; 0x00]%N.

(** Nine bytes whose last one is 0xFF. *)
Definition payload_ff : list Byte.byte :=
  bytes_of [0; 0; 0; 0; 0xA1; 0x00; 0xE7; 0x03; 0xFF]%N.

(** C2, as stated: the battery of every successful decode lies between 0
    and 100. *)
Definition battery_is_percentage : Prop :=
  ∀ (service_info : gmap string pyval) (h : heap) (d : gmap string pyval) (b : Z),
    returned (parse service_info h) = Ok d →
    d !! "battery" = Some (PyInt b) →
    0 <= b <= 100.

End Observations.

(* ===================================================================== *)
(** ** The built-ins on known values *)
(* ===================================================================== *)

Section Builtins.

(** [round(x, 1)] rounds the exact binary value, ties to even:
    [round(0.25, 1) == 0.2], [round(0.35, 1) == 0.3],
    [round(2.675, 1) == 2.7], [round(-2.25, 1) == -2.2],
    [round(1e300, 1) == 1e300]. *)
Example round1_values :
  py_round1 0.25 = 0.2%float ∧ py_round1 0.35 = 0.3%float ∧
  py_round1 2.675 = 2.7%float ∧ py_round1 (-2.25) = (-2.2)%float ∧
  py_round1 1e300 = 1e300%float.
Proof. repeat split; vm_compute; reflexivity. Qed.

(** [161 / 10.0 == 16.1] and rounding leaves it there. *)
Example scaled_161 : py_truediv 161 ten = Ok 16.1%float ∧ scaled 161 = 16.1%float.
Proof. split; vm_compute; reflexivity. Qed.

(** [float(2**53 + 1) == 9007199254740992.0]; the first integer that
    overflows. *)
Example float_of_int_values :
  py_float_of_int (2 ^ 53 + 1) = 9007199254740992%float ∧
  PrimFloat.is_infinity (py_float_of_int (float_overflow - 1)) = false ∧
  PrimFloat.is_infinity (py_float_of_int float_overflow) = true.
Proof. repeat split; vm_compute; reflexivity. Qed.

(** [bytes(n)] at its bounds: [bytes(sys.maxsize - 32)] and
    [bytes(-2**63 - 1)] are an [OverflowError], [bytes(-1)] a
    [ValueError]. *)
Example bytes_of_count_errors :
  py_bytes (PyInt (maxsize - 32)) = Err OverflowError ∧
  py_bytes (PyInt (- 2 ^ 63 - 1)) = Err OverflowError ∧
  py_bytes (PyInt (-1)) = Err ValueError.
Proof. repeat split; reflexivity. Qed.

(** [_as_bytes] on values that are not bytes: [bytes("abc")] and
    [bytes([300])] raise, which gives the empty bytes; [bytes(3)] is
    three zero bytes; [bytes([1, 2])] is the two bytes 1 and 2. *)
Example as_bytes_values :
  _as_bytes (PyStr "abc") = [] ∧
  _as_bytes (PyList [PyInt 300]) = [] ∧
  _as_bytes (PyInt 3) = bytes_of [0; 0; 0]%N ∧
  _as_bytes (PyList [PyInt 1; PyInt 2]) = bytes_of [1; 2]%N ∧
  _as_bytes PyNone = [] ∧
  _as_bytes (PyByteArray payload_ff) = payload_ff.
Proof. repeat split; reflexivity. Qed.

End Builtins.

(* ===================================================================== *)
(** ** Arithmetic of the two-byte fields *)
(* ===================================================================== *)

Section Fields.

Lemma byte_to_int_range (b : Byte.byte) : 0 <= byte_to_int b < 256.
Proof.
  unfold byte_to_int. pose proof (Byte.to_N_bounded b). lia.
Qed.

Lemma raw16_range hi lo : 0 <= raw16 hi lo < 65536.
Proof.
  unfold raw16. rewrite Z.shiftl_mul_pow2 by lia.
  pose proof (byte_to_int_range hi). pose proof (byte_to_int_range lo). lia.
Qed.

Lemma low_byte_disjoint (a lo : Z) :
  0 <= lo < 256 → Z.land (Z.shiftl a 8) lo = 0.
Proof.
  intros Hlo. apply Z.bits_inj'. intros n Hn.
  rewrite Z.land_spec, Z.bits_0.
  destruct (Z.lt_ge_cases n 8) as [Hlt | Hge].
  - rewrite Z.shiftl_spec_low by lia. reflexivity.
  - destruct (Z.eq_dec lo 0) as [-> | Hnz].
    + rewrite Z.bits_0. apply andb_false_r.
    + rewrite (Z.bits_above_log2 lo n); [apply andb_false_r | lia |].
      assert (Z.log2 lo < 8) by (apply Z.log2_lt_pow2; lia). lia.
Qed.

(** No sign extension and no carry: adding the low byte and or-ing it
    in give the same unsigned value. *)
Lemma spec_raw16_eq hi lo : spec_raw16 hi lo = raw16 hi lo.
Proof.
  unfold spec_raw16, raw16.
  pose proof (low_byte_disjoint (byte_to_int hi) (byte_to_int lo) (byte_to_int_range lo)) as Hd.
  rewrite (Z.add_nocarry_lxor _ _ Hd). symmetry. apply Z.lxor_lor, Hd.
Qed.

(** The division of a field value by [10.0] raises nothing. *)
Lemma truediv_field (n : Z) :
  0 <= n < 65536 →
  py_truediv n ten = Ok (PrimFloat.div (py_float_of_int n) ten).
Proof.
  intros Hn. unfold py_truediv.
  assert ((float_overflow <=? Z.abs n) = false) as ->.
  { apply Z.leb_gt. apply Z.lt_trans with 65536; [lia | reflexivity]. }
  reflexivity.
Qed.

End Fields.

(* ===================================================================== *)
(** ** Running [parse] *)
(* ===================================================================== *)

Section Run.

Lemma fields_of_long (payload : list Byte.byte) :
  (8 < length payload)%nat → ∃ f, fields_of payload = Some f.
Proof.
  intros Hlen.
  do 9 (destruct payload as [| ? payload]; [simpl in Hlen; lia |]).
  eexists. reflexivity.
Qed.

Lemma fields_of_short (payload : list Byte.byte) :
  (length payload <= 8)%nat → fields_of payload = None.
Proof.
  intros Hlen.
  do 9 (destruct payload as [| ? payload]; [reflexivity |]).
  simpl in Hlen. lia.
Qed.

Lemma fields_of_lookup (payload : list Byte.byte) (f : fields) :
  fields_of payload = Some f →
  payload !! 4%nat = Some (x4 f) ∧ payload !! 5%nat = Some (x5 f) ∧
  payload !! 6%nat = Some (x6 f) ∧ payload !! 7%nat = Some (x7 f) ∧
  payload !! 8%nat = Some (x8 f) ∧ (8 < length payload)%nat.
Proof.
  intros Hf.
  do 9 (destruct payload as [| ? payload]; [discriminate Hf |]).
  injection Hf as <-. simpl. repeat split; lia.
Qed.

(** Writing to the dict allocated last. *)
Lemma setitem_last {R} (h : heap) (d : gmap string pyval) (key : string) (value : pyval) :
  @dict_setitem R (length h) key value (h ++ [d]) = (Next tt, h ++ [<[key := value]> d]).
Proof.
  unfold dict_setitem. f_equal.
  rewrite <- (Nat.add_0_r (length h)) at 1.
  rewrite alter_app_r. reflexivity.
Qed.

Lemma getitem_lookup (payload : list Byte.byte) (i : nat) (b : Byte.byte) :
  payload !! i = Some b → py_getitem payload i = Ok (byte_to_int b).
Proof. intros Hb. unfold py_getitem. rewrite Hb. reflexivity. Qed.

(** The success path: a payload with bytes at offsets 4 to 8 is decoded
    into the dict allocated on entry, which is returned. *)
Lemma parse_present (service_info : gmap string pyval) (payload : list Byte.byte)
    (f : fields) (h : heap) :
  payload_of service_info = Some payload →
  fields_of payload = Some f →
  parse service_info h = (Ok (length h), h ++ [reading_of f]).
Proof.
  intros Hp Hf. unfold payload_of in Hp. unfold parse.
  destruct (getattr service_info "manufacturer_data" PyNone) as [| | | | | | | items];
    try discriminate Hp.
  destruct (dict_lookup items 9545) as [v |] eqn:Hv; [| discriminate Hp].
  injection Hp as Hp.
  destruct (fields_of_lookup payload f Hf) as (H4 & H5 & H6 & H7 & H8 & Hlen).
  unfold call, mbind, stmt_bind, new_dict, try_except, when, dict_contains, dict_get.
  rewrite Hv, Hp.
  assert (negb (length payload =? 0)%nat && (8 <? length payload)%nat = true) as ->.
  { apply andb_true_iff. split.
    - apply negb_true_iff, Nat.eqb_neq. lia.
    - apply Nat.ltb_lt. exact Hlen. }
  rewrite (getitem_lookup _ _ _ H7), (getitem_lookup _ _ _ H6),
    (getitem_lookup _ _ _ H5), (getitem_lookup _ _ _ H4), (getitem_lookup _ _ _ H8).
  unfold eval at 1 2 3 4 5.
  fold (raw16 (x7 f) (x6 f)). fold (raw16 (x5 f) (x4 f)).
  rewrite (truediv_field _ (raw16_range (x7 f) (x6 f))).
  rewrite (truediv_field _ (raw16_range (x5 f) (x4 f))).
  unfold eval. rewrite !setitem_last. reflexivity.
Qed.

(** The other paths: nothing under key 9545 of a dict, or a payload of
    eight bytes or fewer. The dict allocated on entry is left empty and
    a second empty dict is returned. *)
Lemma parse_absent (service_info : gmap string pyval) (h : heap) :
  (∀ payload, payload_of service_info = Some payload → fields_of payload = None) →
  parse service_info h = (Ok (S (length h)), h ++ [∅; ∅]).
Proof.
  intros Hnone. unfold payload_of in Hnone. unfold parse.
  assert (∀ (A : Type) (hp : heap),
            @mbind (stmt loc) _ loc A (λ d, return_ d) new_dict (hp ++ [∅])
            = (Return (S (length hp)), hp ++ [∅; ∅])) as Hfresh.
  { intros A hp. unfold mbind, stmt_bind, new_dict, return_.
    rewrite length_app, Nat.add_comm, <- app_assoc. reflexivity. }
  unfold call. unfold mbind at 1. unfold stmt_bind at 1. unfold new_dict at 1.
  unfold mbind at 1. unfold stmt_bind at 1. unfold try_except at 1.
  destruct (getattr service_info "manufacturer_data" PyNone) as [| | | | | | | items];
    try (unfold mret, stmt_ret; rewrite Hfresh; reflexivity).
  unfold when at 1, dict_contains, dict_get.
  destruct (dict_lookup items 9545) as [v |] eqn:Hv;
    [| unfold mret, stmt_ret; rewrite Hfresh; reflexivity].
  specialize (Hnone _ eq_refl).
  assert ((8 <? length (_as_bytes v))%nat = false) as Hshort.
  { apply Nat.ltb_ge. destruct (le_lt_dec (length (_as_bytes v)) 8) as [Hle | Hgt]; [exact Hle |].
    destruct (fields_of_long _ Hgt) as [f Hf]. congruence. }
  unfold when. rewrite Hshort, andb_false_r.
  unfold mret, stmt_ret. rewrite Hfresh. reflexivity.
Qed.

(** Every run of [parse], from every heap. *)
Lemma parse_run (service_info : gmap string pyval) (h : heap) :
  parse service_info h =
    match decoded service_info with
    | Some f => (Ok (length h), h ++ [reading_of f])
    | None => (Ok (S (length h)), h ++ [∅; ∅])
    end.
Proof.
  unfold decoded.
  destruct (payload_of service_info) as [payload |] eqn:Hp.
  - destruct (fields_of payload) as [f |] eqn:Hf.
    + exact (parse_present _ _ _ h Hp Hf).
    + apply parse_absent. intros p' Hp'. congruence.
  - apply parse_absent. intros p' Hp'. congruence.
Qed.

(** What the caller then reads. *)
Lemma returned_parse (service_info : gmap string pyval) (h : heap) :
  returned (parse service_info h) =
    Ok (match decoded service_info with
        | Some f => reading_of f
        | None => ∅
        end).
Proof.
  rewrite parse_run. unfold returned.
  destruct (decoded service_info) as [f |].
  - rewrite lookup_app_r by lia. rewrite Nat.sub_diag. reflexivity.
  - rewrite lookup_app_r by lia.
    replace (S (length h) - length h)%nat with 1%nat by lia. reflexivity.
Qed.

End Run.

(* ===================================================================== *)
(** ** A payload presented under a company id *)
(* ===================================================================== *)

Section Decode.

Lemma decoded_decode (companyId : Z) (payload : list Byte.byte) :
  decoded (DummyServiceInfo (PyDict [(companyId, PyBytes payload)]) PyNone PyNone PyNone)
  = if companyId =? 9545 then fields_of payload else None.
Proof.
  unfold decoded, payload_of, DummyServiceInfo, getattr.
  rewrite lookup_insert_eq. simpl.
  destruct (companyId =? 9545); reflexivity.
Qed.

Lemma returned_decode (companyId : Z) (payload : list Byte.byte) (h : heap) :
  returned (decode companyId payload h) =
    Ok (match (if companyId =? 9545 then fields_of payload else None) with
        | Some f => reading_of f
        | None => ∅
        end).
Proof. unfold decode. rewrite returned_parse, decoded_decode. reflexivity. Qed.

(** A dict that has no entry for 9545, whatever else it holds, decodes to
    nothing. *)
Lemma parse_without_key (service_info : gmap string pyval) (items : list (Z * pyval)) (h : heap) :
  getattr service_info "manufacturer_data" PyNone = PyDict items →
  dict_contains items 9545 = false →
  returned (parse service_info h) = Ok ∅.
Proof.
  intros Hm Hk. rewrite returned_parse. unfold decoded, payload_of. rewrite Hm.
  unfold dict_contains in Hk. destruct (dict_lookup items 9545); [discriminate Hk | reflexivity].
Qed.

Lemma Ok_inj {A} (a b : A) : Ok a = Ok b → a = b.
Proof. intros Heq. exact (f_equal (λ o, match o with Ok x => x | Err _ => a end) Heq). Qed.

(** A value that is not bytes can still decode: [bytes(9)] is nine zero
    bytes, read as 0.0, 0.0 and 0. *)
Example int_payload_decodes (h : heap) :
  returned (parse (DummyServiceInfo (PyDict [(9545, PyInt 9)]) PyNone PyNone PyNone) h)
  = Ok (reading 0%float 0%float 0).
Proof. rewrite returned_parse. vm_compute. reflexivity. Qed.

(** A reading is not the empty dict, and its three fields are there. *)
Lemma reading_lookup (temp hum : float) (batt : Z) :
  reading temp hum batt !! "temperature" = Some (PyFloat temp) ∧
  reading temp hum batt !! "humidity" = Some (PyFloat hum) ∧
  reading temp hum batt !! "battery" = Some (PyInt batt).
Proof.
  unfold reading. split; [| split]; reflexivity.
Qed.

Lemma reading_nonempty (temp hum : float) (batt : Z) : reading temp hum batt ≠ ∅.
Proof.
  intros Heq. pose proof (reading_lookup temp hum batt) as (_ & _ & Hb).
  rewrite Heq, lookup_empty in Hb. discriminate Hb.
Qed.

(** Every run ends with the location of a dict of the final heap. *)
Lemma parse_returns (service_info : gmap string pyval) (h : heap) :
  ∃ l h' d, parse service_info h = (Ok l, h') ∧ h' !! l = Some d.
Proof.
  rewrite parse_run. destruct (decoded service_info) as [f |].
  - exists (length h), (h ++ [reading_of f]), (reading_of f). split; [reflexivity |].
    rewrite lookup_app_r by lia. rewrite Nat.sub_diag. reflexivity.
  - exists (S (length h)), (h ++ [∅; ∅]), ∅. split; [reflexivity |].
    rewrite lookup_app_r by lia.
    replace (S (length h) - length h)%nat with 1%nat by lia. reflexivity.
Qed.

End Decode.

(* ===================================================================== *)
(** ** The decoder's contract *)
(* ===================================================================== *)

(** C1. A payload of at least 9 bytes under company id 9545 decodes to
    temperature [round(((payload[5] << 8) | payload[4]) / 10.0, 1)],
    humidity [round(((payload[7] << 8) | payload[6]) / 10.0, 1)] and
    battery [payload[8]], the two-byte fields being unsigned. *)
Theorem decode_fields (payload : list Byte.byte) (h : heap) :
  (9 <= length payload)%nat →
  ∃ b4 b5 b6 b7 b8,
    payload !! 4%nat = Some b4 ∧ payload !! 5%nat = Some b5 ∧
    payload !! 6%nat = Some b6 ∧ payload !! 7%nat = Some b7 ∧
    payload !! 8%nat = Some b8 ∧
    0 <= spec_raw16 b5 b4 < 65536 ∧ 0 <= spec_raw16 b7 b6 < 65536 ∧
    returned (decode 9545 payload h) =
      Ok (reading (scaled (spec_raw16 b5 b4)) (scaled (spec_raw16 b7 b6)) (byte_to_int b8)).
Proof.
  intros Hlen.
  destruct (fields_of_long payload) as [f Hf]; [lia |].
  destruct (fields_of_lookup payload f Hf) as (H4 & H5 & H6 & H7 & H8 & _).
  exists (x4 f), (x5 f), (x6 f), (x7 f), (x8 f).
  rewrite !spec_raw16_eq.
  repeat (split; [first [assumption | apply raw16_range] |]).
  rewrite returned_decode. simpl. rewrite Hf. reflexivity.
Qed.

Lemma decode_fields_witness :
  (9 <= length payload4)%nat ∧
  ∃ b4 b5 b6 b7 b8,
    payload4 !! 4%nat = Some b4 ∧ payload4 !! 5%nat = Some b5 ∧
    payload4 !! 6%nat = Some b6 ∧ payload4 !! 7%nat = Some b7 ∧
    payload4 !! 8%nat = Some b8 ∧
    0 <= spec_raw16 b5 b4 < 65536 ∧ 0 <= spec_raw16 b7 b6 < 65536 ∧
    returned (decode 9545 payload4 []) =
      Ok (reading (scaled (spec_raw16 b5 b4)) (scaled (spec_raw16 b7 b6)) (byte_to_int b8)).
Proof.
  split; [vm_compute; lia | apply (decode_fields payload4 []); vm_compute; lia].
Defined.

(** C2 fails: byte 0xFF at offset 8 is reported as battery 255. *)
Lemma battery_255 :
  returned (decode 9545 payload_ff []) = Ok (reading 16.1%float 99.9%float 255) ∧
  ¬ battery_is_percentage.
Proof.
  assert (returned (decode 9545 payload_ff []) = Ok (reading 16.1%float 99.9%float 255)) as Hrun.
  { rewrite returned_decode. vm_compute. reflexivity. }
  split; [exact Hrun |].
  intros Hclaim.
  specialize (Hclaim _ [] _ 255 Hrun (proj2 (proj2 (reading_lookup _ _ _)))).
  lia.
Qed.

(** C2, amended. The battery of every successful decode is an integer
    between 0 and 255: it is the byte at offset 8 of the payload the
    decoder read under key 9545, not clamped. *)
Theorem battery_is_byte (service_info : gmap string pyval) (h : heap) (d : gmap string pyval) :
  returned (parse service_info h) = Ok d →
  d ≠ ∅ →
  ∃ (payload : list Byte.byte) (b8 : Byte.byte),
    payload_of service_info = Some payload ∧
    payload !! 8%nat = Some b8 ∧
    d !! "battery" = Some (PyInt (byte_to_int b8)) ∧
    0 <= byte_to_int b8 <= 255.
Proof.
  rewrite returned_parse. unfold decoded. intros Hd Hne.
  destruct (payload_of service_info) as [payload |]; [| apply Ok_inj in Hd; congruence].
  destruct (fields_of payload) as [f |] eqn:Hf; [| apply Ok_inj in Hd; congruence].
  apply Ok_inj in Hd. subst d.
  destruct (fields_of_lookup payload f Hf) as (_ & _ & _ & _ & H8 & _).
  exists payload, (x8 f).
  split; [reflexivity |]. split; [exact H8 |]. split.
  - exact (proj2 (proj2 (reading_lookup _ _ _))).
  - pose proof (byte_to_int_range (x8 f)). lia.
Qed.

Lemma battery_is_byte_witness :
  ∃ (payload : list Byte.byte) (b8 : Byte.byte),
    payload_of (DummyServiceInfo (PyDict [(9545, PyBytes payload_ff)]) PyNone PyNone PyNone)
      = Some payload ∧
    payload !! 8%nat = Some b8 ∧
    reading 16.1%float 99.9%float 255 !! "battery" = Some (PyInt (byte_to_int b8)) ∧
    0 <= byte_to_int b8 <= 255.
Proof.
  apply (battery_is_byte
           (DummyServiceInfo (PyDict [(9545, PyBytes payload_ff)]) PyNone PyNone PyNone) []).
  - rewrite returned_parse. vm_compute. reflexivity.
  - apply reading_nonempty.
Defined.

(** C3. All or nothing: the returned dict is empty, or it holds all three
    of temperature, humidity and battery. *)
Theorem all_or_nothing (service_info : gmap string pyval) (h : heap) :
  ∃ d, returned (parse service_info h) = Ok d ∧
    (d = ∅ ∨
     ∃ temp hum batt,
       d !! "temperature" = Some (PyFloat temp) ∧
       d !! "humidity" = Some (PyFloat hum) ∧
       d !! "battery" = Some (PyInt batt)).
Proof.
  rewrite returned_parse. eexists. split; [reflexivity |].
  destruct (decoded service_info) as [f |]; [right | left; reflexivity].
  exists (scaled (raw16 (x5 f) (x4 f))), (scaled (raw16 (x7 f) (x6 f))), (byte_to_int (x8 f)).
  exact (reading_lookup _ _ _).
Qed.

(** C4. Under a company id other than 9545 every payload decodes to
    nothing. *)
Theorem other_company_empty (companyId : Z) (payload : list Byte.byte) (h : heap) :
  companyId ≠ 9545 →
  returned (decode companyId payload h) = Ok ∅.
Proof.
  intros Hc. rewrite returned_decode.
  apply Z.eqb_neq in Hc. rewrite Hc. reflexivity.
Qed.

Lemma other_company_empty_witness :
  returned (decode 1 payload4 []) = Ok ∅.
Proof. apply (other_company_empty 1 payload4 []). lia. Defined.

(** C5. Under company id 9545 a payload of 8 bytes or fewer, the empty
    one included, decodes to nothing. *)
Theorem short_payload_empty (payload : list Byte.byte) (h : heap) :
  (length payload <= 8)%nat →
  returned (decode 9545 payload h) = Ok ∅.
Proof.
  intros Hlen. rewrite returned_decode. simpl.
  rewrite (fields_of_short payload Hlen). reflexivity.
Qed.

Lemma short_payload_empty_witness :
  returned (decode 9545 (take 8 payload4) []) = Ok ∅.
Proof. apply (short_payload_empty (take 8 payload4) []). vm_compute. lia. Defined.

(** On built-in data values [parse] never raises: from every such input
    and every heap it returns the location of a dict, empty or a full
    reading. (Inputs that are objects of other kinds are the matter of
    [Objects.parse].) *)
Theorem parse_never_raises (service_info : gmap string pyval) (h : heap) :
  ∃ l h' d,
    parse service_info h = (Ok l, h') ∧ h' !! l = Some d ∧
    (d = ∅ ∨ ∃ temp hum batt, d = reading temp hum batt).
Proof.
  rewrite parse_run. destruct (decoded service_info) as [f |].
  - exists (length h), (h ++ [reading_of f]), (reading_of f). split; [reflexivity |]. split.
    + rewrite lookup_app_r by lia. rewrite Nat.sub_diag. reflexivity.
    + right. do 3 eexists. reflexivity.
  - exists (S (length h)), (h ++ [∅; ∅]), ∅. split; [reflexivity |]. split.
    + rewrite lookup_app_r by lia.
      replace (S (length h) - length h)%nat with 1%nat by lia. reflexivity.
    + left. reflexivity.
Qed.

(** C7. The two recorded advertisements decode to 16.1 / 99.9 / 70 and
    15.9 / 99.9 / 86. *)
Theorem recorded_samples (h : heap) :
  returned (decode 9545 payload4 h) = Ok (reading 16.1%float 99.9%float 70) ∧
  returned (decode 9545 payload5 h) = Ok (reading 15.9%float 99.9%float 86).
Proof.
  rewrite !returned_decode. split; vm_compute; reflexivity.
Qed.

(** C8. Two payloads of at least 9 bytes under company id 9545 that
    agree at offsets 4 to 8 decode to equal readings. *)
Theorem only_offsets_4_to_8 (p q : list Byte.byte) (h1 h2 : heap) :
  (9 <= length p)%nat → (9 <= length q)%nat →
  (∀ i : nat, (4 <= i <= 8)%nat → p !! i = q !! i) →
  returned (decode 9545 p h1) = returned (decode 9545 q h2).
Proof.
  intros Hp Hq Hagree.
  destruct (fields_of_long p) as [f Hf]; [lia |].
  destruct (fields_of_long q) as [g Hg]; [lia |].
  rewrite !returned_decode. simpl. rewrite Hf, Hg.
  destruct (fields_of_lookup p f Hf) as (F4 & F5 & F6 & F7 & F8 & _).
  destruct (fields_of_lookup q g Hg) as (G4 & G5 & G6 & G7 & G8 & _).
  rewrite (Hagree 4%nat) in F4 by lia. rewrite (Hagree 5%nat) in F5 by lia.
  rewrite (Hagree 6%nat) in F6 by lia. rewrite (Hagree 7%nat) in F7 by lia.
  rewrite (Hagree 8%nat) in F8 by lia.
  destruct f, g. simpl in *. congruence.
Qed.

Lemma only_offsets_4_to_8_witness :
  returned (decode 9545 payload4 []) =
  returned (decode 9545 (bytes_of [9; 9; 9; 9; 0xA1; 0x00; 0xE7; 0x03; 0x46]%N) [∅]).
Proof.
  apply (only_offsets_4_to_8 payload4 (bytes_of [9; 9; 9; 9; 0xA1; 0x00; 0xE7; 0x03; 0x46]%N) [] [∅]).
  - vm_compute. lia.
  - vm_compute. lia.
  - intros i Hi.
    assert (i = 4 ∨ i = 5 ∨ i = 6 ∨ i = 7 ∨ i = 8)%nat as Hcase by lia.
    destruct Hcase as [-> | [-> | [-> | [-> | ->]]]]; reflexivity.
Defined.

(** C9. [parse] is deterministic and keeps no state. The dict it returns
    has the same contents whatever the heap it starts from; it is a new
    object; the dicts that were there before are left as they were; and
    a second call on the same input returns a second dict with the same
    contents, leaving the first one untouched. *)
Theorem parse_pure (service_info : gmap string pyval) (h : heap) :
  (∀ h0, returned (parse service_info h0) = returned (parse service_info h)) ∧
  ∃ l1 h1 l2 h2 d,
    parse service_info h = (Ok l1, h1) ∧
    parse service_info h1 = (Ok l2, h2) ∧
    (length h <= l1)%nat ∧ (length h1 <= l2)%nat ∧
    (∀ l : nat, (l < length h)%nat → h1 !! l = h !! l) ∧
    (∀ l : nat, (l < length h1)%nat → h2 !! l = h1 !! l) ∧
    h1 !! l1 = Some d ∧ h2 !! l1 = Some d ∧ h2 !! l2 = Some d.
Proof.
  split.
  - intros h0. rewrite !returned_parse. reflexivity.
  - destruct (parse_returns service_info h) as (l1 & h1 & d & Hrun1 & Hd1).
    destruct (parse_returns service_info h1) as (l2 & h2 & d' & Hrun2 & Hd2).
    exists l1, h1, l2, h2, d.
    pose proof (returned_parse service_info h) as R1.
    pose proof (returned_parse service_info h1) as R2.
    rewrite Hrun1 in R1. rewrite Hrun2 in R2. unfold returned in R1, R2.
    rewrite Hd1 in R1. rewrite Hd2 in R2.
    assert (d' = d) as -> by congruence.
    pose proof (parse_run service_info h) as P1. rewrite Hrun1 in P1.
    pose proof (parse_run service_info h1) as P2. rewrite Hrun2 in P2.
    assert (∀ (k : heap) (l : nat) (k' : heap),
              (Ok l, k') = match decoded service_info with
                           | Some f => (Ok (length k), k ++ [reading_of f])
                           | None => (Ok (S (length k)), k ++ [∅; ∅])
                           end →
              (length k <= l)%nat ∧ ∀ i : nat, (i < length k)%nat → k' !! i = k !! i) as Hframe.
    { intros k l k' Hk. destruct (decoded service_info); injection Hk as -> ->;
        (split; [lia | intros i Hi; apply lookup_app_l, Hi]). }
    destruct (Hframe _ _ _ P1) as [Hl1 Hf1]. destruct (Hframe _ _ _ P2) as [Hl2 Hf2].
    repeat (split; [assumption |]).
    split; [| exact Hd2].
    rewrite Hf2; [exact Hd1 |]. apply lookup_lt_is_Some. eauto.
Qed.

(** C10. Under company id 9545 every payload of at least 9 bytes is
    decoded into a full reading, and a wrong company id or a payload of
    fewer than 9 bytes are the only ways for bytes to decode to nothing. *)
Theorem decode_succeeds (companyId : Z) (payload : list Byte.byte) (h : heap) :
  ((9 <= length payload)%nat →
   ∃ temp hum batt,
     returned (decode 9545 payload h) = Ok (reading temp hum batt) ∧
     reading temp hum batt ≠ ∅) ∧
  (returned (decode companyId payload h) = Ok ∅ ↔
   companyId ≠ 9545 ∨ (length payload < 9)%nat).
Proof.
  split.
  - intros Hlen. destruct (fields_of_long payload) as [f Hf]; [lia |].
    do 3 eexists. rewrite returned_decode. simpl. rewrite Hf.
    split; [reflexivity | apply reading_nonempty].
  - rewrite returned_decode. split.
    + intros Hempty.
      destruct (Z.eqb_spec companyId 9545) as [_ | Hc]; [| left; exact Hc].
      right. destruct (le_lt_dec 9 (length payload)) as [Hlen | Hlen]; [| exact Hlen].
      destruct (fields_of_long payload) as [f Hf]; [lia |].
      rewrite Hf in Hempty.
      destruct (reading_nonempty _ _ _ (Ok_inj _ _ Hempty)).
    + intros [Hc | Hlen].
      * apply Z.eqb_neq in Hc. rewrite Hc. reflexivity.
      * rewrite fields_of_short by lia. destruct (companyId =? 9545); reflexivity.
Qed.

Lemma decode_succeeds_witness :
  ∃ temp hum batt,
    returned (decode 9545 payload4 []) = Ok (reading temp hum batt) ∧
    reading temp hum batt ≠ ∅.
Proof.
  apply (proj1 (decode_succeeds 9545 payload4 [])). vm_compute. lia.
Defined.

(* ===================================================================== *)
(** ** More on [_as_bytes] and [parse] *)
(* ===================================================================== *)

Section AsBytes.

Lemma byte_of_int_to_int (b : Byte.byte) : byte_of_int (byte_to_int b) = Ok b.
Proof.
  unfold byte_of_int. pose proof (byte_to_int_range b) as Hr.
  assert ((0 <=? byte_to_int b) && (byte_to_int b <? 256) = true) as ->.
  { apply andb_true_iff. split; [apply Z.leb_le | apply Z.ltb_lt]; lia. }
  unfold byte_to_int. rewrite N2Z.id, Byte.of_to_N. reflexivity.
Qed.

Lemma byte_of_int_Ok (n : Z) (b : Byte.byte) :
  byte_of_int n = Ok b → n = byte_to_int b.
Proof.
  unfold byte_of_int. intros Hb.
  destruct ((0 <=? n) && (n <? 256)) eqn:Hr; [| discriminate Hb].
  apply andb_true_iff in Hr as [Hlo _]. apply Z.leb_le in Hlo.
  destruct (Byte.of_N (Z.to_N n)) as [b' |] eqn:Hof; [| discriminate Hb].
  assert (b' = b) as -> by congruence.
  apply Byte.to_of_N in Hof. unfold byte_to_int. rewrite Hof. lia.
Qed.

(** X1. A list of the integers of some bytes converts back to exactly
    those bytes. *)
Theorem as_bytes_int_list (bs : list Byte.byte) :
  _as_bytes (PyList (map (λ b, PyInt (byte_to_int b)) bs)) = bs.
Proof.
  unfold _as_bytes, py_bytes.
  assert (bytes_of_items (map (λ b, PyInt (byte_to_int b)) bs) = Ok bs) as ->; [| reflexivity].
  induction bs as [| b bs IH]; [reflexivity |].
  simpl. rewrite byte_of_int_to_int. unfold mbind, outcome_bind. rewrite IH. reflexivity.
Qed.

Lemma bytes_of_items_Ok (vs : list pyval) (bs : list Byte.byte) :
  bytes_of_items vs = Ok bs → vs = map (λ b, PyInt (byte_to_int b)) bs.
Proof.
  revert bs. induction vs as [| v vs IH]; intros bs Hok; simpl in Hok.
  - assert (bs = []) as -> by congruence. reflexivity.
  - unfold mbind, outcome_bind in Hok.
    destruct (byte_of_item v) as [b |] eqn:Hb; [| discriminate Hok].
    destruct (bytes_of_items vs) as [bs' |] eqn:Hbs; [| discriminate Hok].
    assert (bs = b :: bs') as -> by congruence.
    simpl. rewrite <- (IH bs' eq_refl). f_equal.
    destruct v; try discriminate Hb. simpl in Hb.
    f_equal. apply byte_of_int_Ok, Hb.
Qed.

(** X2. All or nothing for a list: [_as_bytes] gives the empty bytes as
    soon as one element is not an integer in [range(256)]; whatever it
    returns that is not empty has one byte per element, each the byte
    of that integer. *)
Theorem as_bytes_list (vs : list pyval) :
  _as_bytes (PyList vs) = [] ∨
  vs = map (λ b, PyInt (byte_to_int b)) (_as_bytes (PyList vs)).
Proof.
  unfold _as_bytes, py_bytes.
  destruct (bytes_of_items vs) as [bs |] eqn:Hbs; [| left; reflexivity].
  right. apply bytes_of_items_Ok, Hbs.
Qed.


(** When [bytes(value)] raises, [_as_bytes] gives the empty bytes. *)
Lemma as_bytes_of_error (value : pyval) (e : exn) :
  py_bytes value = Err e → _as_bytes value = [].
Proof.
  intros He. destruct value; simpl in *; try discriminate He; try reflexivity;
    unfold py_bytes in He; rewrite He; reflexivity.
Qed.

End AsBytes.

Section ParseInputs.

(** X3. [parse] reads nothing but the [manufacturer_data] attribute:
    two objects that agree on it (both lacking it included) give the
    same run, whatever their [service_data], [address] or other
    attributes. *)
Theorem parse_only_manufacturer_data (a b : gmap string pyval) (h : heap) :
  a !! "manufacturer_data" = b !! "manufacturer_data" →
  parse a h = parse b h.
Proof.
  intros Hsame. rewrite !parse_run.
  unfold decoded, payload_of, getattr. rewrite Hsame. reflexivity.
Qed.

Lemma parse_only_manufacturer_data_witness :
  parse (DummyServiceInfo (PyDict [(9545, PyBytes payload4)]) PyNone PyNone PyNone) []
  = parse (<["manufacturer_data" := PyDict [(9545, PyBytes payload4)]]> ∅) [].
Proof.
  apply (parse_only_manufacturer_data
           (DummyServiceInfo (PyDict [(9545, PyBytes payload4)]) PyNone PyNone PyNone)
           (<["manufacturer_data" := PyDict [(9545, PyBytes payload4)]]> ∅) []).
  vm_compute. reflexivity.
Defined.

(** X4. Only the entry under key 9545 counts, and only through
    [_as_bytes]: whatever else the dict holds and whatever the type of
    the value, the result is that of the bytes [_as_bytes(value)]
    presented alone under 9545. *)
Theorem parse_entry_9545 (service_info : gmap string pyval) (items : list (Z * pyval))
    (value : pyval) (h : heap) :
  getattr service_info "manufacturer_data" PyNone = PyDict items →
  dict_lookup items 9545 = Some value →
  returned (parse service_info h) = returned (decode 9545 (_as_bytes value) h).
Proof.
  intros Hm Hv. rewrite returned_parse, returned_decode.
  unfold decoded, payload_of. rewrite Hm, Hv. reflexivity.
Qed.

Lemma parse_entry_9545_witness :
  returned (parse (DummyServiceInfo
                     (PyDict [(76, PyBytes payload5); (9545, PyByteArray payload4)])
                     PyNone PyNone PyNone) [])
  = returned (decode 9545 (_as_bytes (PyByteArray payload4)) []).
Proof.
  apply (parse_entry_9545
           (DummyServiceInfo (PyDict [(76, PyBytes payload5); (9545, PyByteArray payload4)])
                             PyNone PyNone PyNone)
           [(76, PyBytes payload5); (9545, PyByteArray payload4)]
           (PyByteArray payload4) []); reflexivity.
Defined.

(** X5. When [manufacturer_data] is missing or is anything but a dict,
    the result is empty. *)
Theorem parse_not_a_dict (service_info : gmap string pyval) (h : heap) :
  (∀ items, getattr service_info "manufacturer_data" PyNone ≠ PyDict items) →
  returned (parse service_info h) = Ok ∅.
Proof.
  intros Hnd. rewrite returned_parse. unfold decoded, payload_of.
  destruct (getattr service_info "manufacturer_data" PyNone) as [| | | | | | | items];
    try reflexivity.
  destruct (Hnd items eq_refl).
Qed.

Lemma parse_not_a_dict_witness :
  returned (parse ∅ []) = Ok ∅ ∧
  returned (parse (<["manufacturer_data" := PyList [PyBytes payload4]]> ∅) []) = Ok ∅.
Proof.
  split.
  - apply (parse_not_a_dict ∅ []). intros items. vm_compute. discriminate.
  - apply (parse_not_a_dict (<["manufacturer_data" := PyList [PyBytes payload4]]> ∅) []).
    intros items. vm_compute. discriminate.
Defined.

(** X6. A value under 9545 that [bytes(...)] rejects (a string, a
    float, a negative integer, a list with an element outside
    [range(256)], ...) gives the empty result, as if the key were not
    there. *)
Theorem parse_unconvertible (service_info : gmap string pyval) (items : list (Z * pyval))
    (value : pyval) (e : exn) (h : heap) :
  getattr service_info "manufacturer_data" PyNone = PyDict items →
  dict_lookup items 9545 = Some value →
  py_bytes value = Err e →
  returned (parse service_info h) = Ok ∅.
Proof.
  intros Hm Hv He. rewrite returned_parse.
  unfold decoded, payload_of. rewrite Hm, Hv.
  rewrite (as_bytes_of_error _ _ He). reflexivity.
Qed.

Lemma parse_unconvertible_witness :
  returned (parse (DummyServiceInfo (PyDict [(9545, PyList [PyInt 1; PyInt 256])])
                                    PyNone PyNone PyNone) []) = Ok ∅.
Proof.
  apply (parse_unconvertible
           (DummyServiceInfo (PyDict [(9545, PyList [PyInt 1; PyInt 256])]) PyNone PyNone PyNone)
           [(9545, PyList [PyInt 1; PyInt 256])] (PyList [PyInt 1; PyInt 256]) ValueError []);
    reflexivity.
Defined.





End ParseInputs.

(* ===================================================================== *)
(** ** The scanning helpers *)
(* ===================================================================== *)

Section Loops.

Context {A B : Type}.
Implicit Types (xs : list A) (body : A → outcome (option B)).

(** The loop returns at position [k] when the body returns there and
    fell through at every earlier position. *)
Lemma for_first_at xs body (k : nat) (x : A) (r : B) :
  xs !! k = Some x →
  body x = Ok (Some r) →
  (∀ (j : nat) (y : A), (j < k)%nat → xs !! j = Some y → body y = Ok None) →
  for_first xs body = Ok (Some r).
Proof.
  revert k. induction xs as [| a xs IH]; intros k Hk Hr Hbefore; [discriminate Hk |].
  destruct k as [| k]; simpl in *.
  - assert (a = x) as -> by congruence. rewrite Hr. reflexivity.
  - rewrite (Hbefore 0%nat a) by (lia || reflexivity).
    apply (IH k Hk Hr). intros j y Hj Hy. apply (Hbefore (S j) y); [lia | exact Hy].
Qed.

(** The loop falls through when the body does at every position. *)
Lemma for_first_none xs body :
  (∀ (j : nat) (y : A), xs !! j = Some y → body y = Ok None) →
  for_first xs body = Ok None.
Proof.
  induction xs as [| a xs IH]; intros Hall; [reflexivity |].
  simpl. rewrite (Hall 0%nat a eq_refl).
  apply IH. intros j y Hy. apply (Hall (S j) y Hy).
Qed.

(** A body that never raises leaves the loop in one of these two ways. *)
Lemma for_first_cases xs body :
  (∀ (j : nat) (y : A), xs !! j = Some y → ∃ o, body y = Ok o) →
  (for_first xs body = Ok None ∧
   ∀ (j : nat) (y : A), xs !! j = Some y → body y = Ok None) ∨
  (∃ (k : nat) (x : A) (r : B),
     for_first xs body = Ok (Some r) ∧ xs !! k = Some x ∧ body x = Ok (Some r) ∧
     ∀ (j : nat) (y : A), (j < k)%nat → xs !! j = Some y → body y = Ok None).
Proof.
  induction xs as [| a xs IH]; intros Hok.
  - left. split; [reflexivity |]. intros j y Hy. discriminate Hy.
  - destruct (Hok 0%nat a eq_refl) as [[r |] Ha].
    + right. exists 0%nat, a, r. simpl. rewrite Ha.
      repeat split; try reflexivity. intros j y Hj. lia.
    + destruct IH as [[Hnone Hall] | (k & x & r & Hret & Hk & Hx & Hbefore)].
      * intros j y Hy. apply (Hok (S j) y Hy).
      * left. simpl. rewrite Ha. split; [exact Hnone |].
        intros [| j] y Hy; simpl in Hy; [congruence | apply (Hall j y Hy)].
      * right. exists (S k), x, r. simpl. rewrite Ha.
        repeat split; try assumption.
        intros [| j] y Hj Hy; simpl in Hy; [congruence |].
        apply (Hbefore j y); [lia | exact Hy].
Qed.

End Loops.

Section Battery.

Implicit Types (payload : list Byte.byte) (x y : Byte.byte).

Lemma reverse_range_lookup (n k i : nat) :
  reverse (seq 0 n) !! k = Some i ↔ (k < n)%nat ∧ i = (n - S k)%nat.
Proof.
  rewrite reverse_lookup_Some, length_seq, lookup_seq. lia.
Qed.

Lemma enumerate_lookup payload (i j : nat) (b : Z) :
  enumerate payload !! i = Some (j, b) ↔
  j = i ∧ ∃ x, payload !! i = Some x ∧ b = byte_to_int x.
Proof.
  unfold enumerate. rewrite list_lookup_imap.
  destruct (payload !! i) as [x |]; simpl; split.
  - intros Heq. injection Heq as <- <-. eauto.
  - intros (-> & x' & Hx & ->). congruence.
  - discriminate.
  - intros (_ & x' & Hx & _). discriminate Hx.
Qed.

Lemma nonempty_of_lookup payload (i : nat) x :
  payload !! i = Some x → Nat.eqb (length payload) 0 = false.
Proof. intros Hx. apply lookup_lt_Some in Hx. apply Nat.eqb_neq. lia. Qed.

Lemma leb_range (lo hi b : Z) : (lo <=? b) && (b <=? hi) = true ↔ lo <= b <= hi.
Proof. rewrite andb_true_iff, !Z.leb_le. reflexivity. Qed.

Lemma leb_range_false (lo hi b : Z) : (lo <=? b) && (b <=? hi) = false ↔ ¬ (lo <= b <= hi).
Proof. rewrite <- leb_range. destruct ((lo <=? b) && (b <=? hi)); split; congruence. Qed.

(** The first loop of [_find_battery] falls through exactly when no
    byte lies in 10..100. *)
Lemma battery_first_loop_none payload :
  (∀ (j : nat) y, payload !! j = Some y → ¬ (10 <= byte_to_int y <= 100)) →
  for_first (reverse (seq 0 (length payload))) (λ idx,
    b ← py_getitem payload idx;
    if (10 <=? b) && (b <=? 100) then Ok (Some (py_int b, idx)) else Ok None) = Ok None.
Proof.
  intros Hnone. apply for_first_none. intros k i Hk.
  apply reverse_range_lookup in Hk as [Hk ->].
  destruct (lookup_lt_is_Some_2 payload (length payload - S k)) as [y Hy]; [lia |].
  rewrite (getitem_lookup _ _ _ Hy). unfold mbind, outcome_bind.
  apply (Hnone _ _) in Hy as Hout. apply leb_range_false in Hout. rewrite Hout. reflexivity.
Qed.

(** X8. When some byte lies in 10..100, [_find_battery] returns the
    last such byte with its index. *)
Theorem find_battery_last (payload : list Byte.byte) (temp_index hum_index : option Z)
    (idx : nat) (x : Byte.byte) :
  payload !! idx = Some x →
  10 <= byte_to_int x <= 100 →
  (∀ (j : nat) y, (idx < j)%nat → payload !! j = Some y → ¬ (10 <= byte_to_int y <= 100)) →
  _find_battery payload temp_index hum_index = Ok (Some (byte_to_int x, idx)).
Proof.
  intros Hx Hin Hlater. unfold _find_battery.
  rewrite (nonempty_of_lookup _ _ _ Hx).
  pose proof (lookup_lt_Some _ _ _ Hx) as Hlt.
  rewrite (for_first_at _ _ (length payload - S idx) idx (byte_to_int x, idx)).
  - reflexivity.
  - apply reverse_range_lookup. lia.
  - rewrite (getitem_lookup _ _ _ Hx). unfold mbind, outcome_bind.
    apply leb_range in Hin. rewrite Hin. reflexivity.
  - intros k i Hk Hi. apply reverse_range_lookup in Hi as [Hkn ->].
    destruct (lookup_lt_is_Some_2 payload (length payload - S k)) as [y Hy]; [lia |].
    rewrite (getitem_lookup _ _ _ Hy). unfold mbind, outcome_bind.
    assert (¬ (10 <= byte_to_int y <= 100)) as Hout by (apply (Hlater (length payload - S k)%nat); [lia | exact Hy]).
    apply leb_range_false in Hout. rewrite Hout. reflexivity.
Qed.

Lemma find_battery_last_witness :
  _find_battery (bytes_of [41; 9; 56; 95; 200; 7]%N) None None = Ok (Some (95, 3%nat)).
Proof.
  apply (find_battery_last (bytes_of [41; 9; 56; 95; 200; 7]%N) None None 3
           (default Byte.x00 (Byte.of_N 95))).
  - reflexivity.
  - vm_compute. split; discriminate.
  - intros j y Hj Hy.
    destruct j as [| [| [| [| [| [| j]]]]]]; try lia; simpl in Hy;
      [| | discriminate Hy]; injection Hy as <-; vm_compute; intros [H1 H2];
      first [apply H1; reflexivity | apply H2; reflexivity].
Defined.

(** X9. When no byte lies in 10..100, [_find_battery] falls back to the
    first byte that is at most 100 (so below 10). *)
Theorem find_battery_fallback (payload : list Byte.byte) (temp_index hum_index : option Z)
    (idx : nat) (x : Byte.byte) :
  (∀ (j : nat) y, payload !! j = Some y → ¬ (10 <= byte_to_int y <= 100)) →
  payload !! idx = Some x →
  byte_to_int x <= 100 →
  (∀ (j : nat) y, (j < idx)%nat → payload !! j = Some y → 100 < byte_to_int y) →
  _find_battery payload temp_index hum_index = Ok (Some (byte_to_int x, idx)) ∧
  byte_to_int x < 10.
Proof.
  intros Hnone Hx Hle Hbefore. split.
  - unfold _find_battery. rewrite (nonempty_of_lookup _ _ _ Hx).
    rewrite (battery_first_loop_none _ Hnone). unfold mbind, outcome_bind.
    apply (for_first_at _ _ idx (idx, byte_to_int x)).
    + apply enumerate_lookup. eauto.
    + pose proof (byte_to_int_range x) as Hr.
      assert ((0 <=? byte_to_int x) && (byte_to_int x <=? 100) = true) as ->
        by (apply leb_range; lia).
      reflexivity.
    + intros j [j' b] Hj Hjb. apply enumerate_lookup in Hjb as (-> & y & Hy & ->).
      assert ((0 <=? byte_to_int y) && (byte_to_int y <=? 100) = false) as ->.
      { apply leb_range_false. pose proof (Hbefore _ _ Hj Hy). lia. }
      reflexivity.
  - pose proof (Hnone _ _ Hx). pose proof (byte_to_int_range x). lia.
Qed.

Lemma find_battery_fallback_witness :
  _find_battery (bytes_of [200; 3; 201; 5]%N) None None = Ok (Some (3, 1%nat)) ∧ 3 < 10.
Proof.
  apply (find_battery_fallback (bytes_of [200; 3; 201; 5]%N) None None 1
           (default Byte.x00 (Byte.of_N 3))).
  - intros j y Hy.
    destruct j as [| [| [| [| j]]]]; simpl in Hy; [| | | | discriminate Hy];
      injection Hy as <-; vm_compute; intros [H1 H2];
      first [apply H1; reflexivity | apply H2; reflexivity].
  - reflexivity.
  - vm_compute. discriminate.
  - intros j y Hj Hy. destruct j as [| j]; [| lia].
    simpl in Hy. injection Hy as <-. vm_compute. reflexivity.
Defined.

Lemma battery_first_body payload (i : nat) (r : option (Z * nat)) :
  (b ← py_getitem payload i;
   if (10 <=? b) && (b <=? 100) then Ok (Some (py_int b, i)) else Ok None) = Ok r →
  ∃ y, payload !! i = Some y ∧
    ((10 <= byte_to_int y <= 100 ∧ r = Some (byte_to_int y, i)) ∨
     (¬ (10 <= byte_to_int y <= 100) ∧ r = None)).
Proof.
  unfold py_getitem, mbind, outcome_bind.
  destruct (payload !! i) as [y |]; [| discriminate].
  intros Hr. exists y. split; [reflexivity |].
  destruct ((10 <=? byte_to_int y) && (byte_to_int y <=? 100)) eqn:Ht.
  - left. apply leb_range in Ht. split; [exact Ht |].
    apply Ok_inj in Hr. symmetry. exact Hr.
  - right. apply leb_range_false in Ht. split; [exact Ht |].
    apply Ok_inj in Hr. symmetry. exact Hr.
Qed.

(** X10. [_find_battery] never raises; it finds nothing exactly when
    every byte is above 100 (the empty payload included); and what it
    returns is a byte of the payload, at most 100, with its own index. *)
Theorem find_battery_result (payload : list Byte.byte) (temp_index hum_index : option Z) :
  ∃ r, _find_battery payload temp_index hum_index = Ok r ∧
    (r = None ↔ ∀ (j : nat) y, payload !! j = Some y → 100 < byte_to_int y) ∧
    (∀ (b : Z) (idx : nat), r = Some (b, idx) →
       ∃ x, payload !! idx = Some x ∧ b = byte_to_int x ∧ 0 <= b <= 100).
Proof.
  unfold _find_battery.
  destruct (Nat.eqb_spec (length payload) 0) as [Hempty | Hne].
  { exists None. split; [reflexivity |]. split; [| discriminate].
    split; [| reflexivity]. intros _ j y Hy.
    apply lookup_lt_Some in Hy. lia. }
  set (body1 := λ idx : nat,
         b ← py_getitem payload idx;
         if (10 <=? b) && (b <=? 100) then Ok (Some (py_int b, idx)) else Ok None).
  destruct (for_first_cases (reverse (seq 0 (length payload))) body1)
    as [[Hnone Hall] | (k & i & r & Hret & Hk & Hi & _)].
  { intros k i Hk. apply reverse_range_lookup in Hk as [Hk ->].
    destruct (lookup_lt_is_Some_2 payload (length payload - S k)) as [y Hy]; [lia |].
    unfold body1. rewrite (getitem_lookup _ _ _ Hy). unfold mbind, outcome_bind.
    destruct ((10 <=? byte_to_int y) && (byte_to_int y <=? 100)); eauto. }
  - rewrite Hnone. unfold mbind at 1, outcome_bind at 1.
    assert (∀ (j : nat) y, payload !! j = Some y → ¬ (10 <= byte_to_int y <= 100)) as Hout.
    { intros j y Hy Hin.
      pose proof (lookup_lt_Some _ _ _ Hy) as Hj.
      assert (reverse (seq 0 (length payload)) !! (length payload - S j)%nat = Some j) as Hrev
        by (apply reverse_range_lookup; lia).
      specialize (Hall _ _ Hrev). apply battery_first_body in Hall as (y' & Hy' & Hcase).
      assert (y' = y) as -> by congruence.
      destruct Hcase as [[_ Hr] | [Hno _]]; [discriminate Hr | exact (Hno Hin)]. }
    set (body2 := λ '(idx, b), if (0 <=? b) && (b <=? 100)
                               then Ok (Some (py_int b, idx)) else @Ok (option (Z * nat)) None).
    destruct (for_first_cases (enumerate payload) body2)
      as [[Hnone2 Hall2] | (k & [i b] & r & Hret & Hk & Hi & _)].
    { intros k [i b] _. unfold body2. destruct ((0 <=? b) && (b <=? 100)); eauto. }
    + exists None. split; [exact Hnone2 |]. split; [| discriminate].
      split; [| reflexivity]. intros _ j y Hy.
      assert (enumerate payload !! j = Some (j, byte_to_int y)) as He
        by (apply enumerate_lookup; eauto).
      specialize (Hall2 _ _ He). unfold body2 in Hall2.
      destruct ((0 <=? byte_to_int y) && (byte_to_int y <=? 100)) eqn:Ht; [discriminate Hall2 |].
      apply leb_range_false in Ht. pose proof (byte_to_int_range y). lia.
    + apply enumerate_lookup in Hk as (-> & x & Hx & ->).
      unfold body2 in Hi.
      destruct ((0 <=? byte_to_int x) && (byte_to_int x <=? 100)) eqn:Ht; [| discriminate Hi].
      apply leb_range in Ht.
      exists (Some r). split; [exact Hret |]. split.
      * split; [discriminate |].
        intros Habove. specialize (Habove _ _ Hx). lia.
      * intros b' idx' Heq. exists x.
        assert ((b', idx') = (byte_to_int x, k)) as Heq'.
        { apply Ok_inj in Hi. unfold py_int in Hi. congruence. }
        injection Heq' as -> ->. repeat split; (assumption || lia).
  - apply reverse_range_lookup in Hk as [Hk ->].
    apply battery_first_body in Hi as (y & Hy & [[Hin Hr] | [_ Hr]]); [| discriminate Hr].
    rewrite Hret. unfold mbind, outcome_bind.
    exists (Some r). split; [reflexivity |]. split.
    + split; [discriminate |]. intros Hall. specialize (Hall _ _ Hy). lia.
    + intros b' idx' Heq.
      assert ((b', idx') = (byte_to_int y, (length payload - S k)%nat)) as Heq' by congruence.
      injection Heq' as -> ->. exists y. repeat split; (assumption || lia).
Qed.

End Battery.

Section Humidity.

Implicit Types (payload : list Byte.byte) (x y : Byte.byte) (c m : nat * Z).

(** Candidates come in the order of their indices. *)
Definition by_index : relation (nat * Z) := λ a b, (a.1 < b.1)%nat.

Lemma enumerate_sorted_from (k : nat) payload :
  StronglySorted by_index (imap (λ idx b, ((k + idx)%nat, byte_to_int b)) payload) ∧
  Forall (λ c, (k <= c.1)%nat) (imap (λ idx b, ((k + idx)%nat, byte_to_int b)) payload).
Proof.
  revert k. induction payload as [| x payload IH]; intros k.
  - split; constructor.
  - rewrite imap_cons.
    rewrite (imap_ext _ (λ idx b, ((S k + idx)%nat, byte_to_int b))) by (intros; simpl; f_equal; lia).
    destruct (IH (S k)) as [Hs Hf]. split.
    + constructor; [exact Hs |].
      eapply Forall_impl; [exact Hf |]. intros c Hc. unfold by_index. simpl in *. lia.
    + constructor; [simpl; lia |].
      eapply Forall_impl; [exact Hf |]. intros c Hc. simpl in *. lia.
Qed.

Lemma enumerate_sorted payload : StronglySorted by_index (enumerate payload).
Proof. exact (proj1 (enumerate_sorted_from 0 payload)). Qed.

Lemma filter_sorted (f : nat * Z → bool) (l : list (nat * Z)) :
  StronglySorted by_index l → StronglySorted by_index (List.filter f l).
Proof.
  induction 1 as [| a l Hs IH Hf]; simpl; [constructor |].
  destruct (f a); [| exact IH].
  constructor; [exact IH |].
  rewrite List.Forall_forall in *. intros c Hc. apply Hf.
  apply filter_In in Hc. tauto.
Qed.

(** [min] keeps the element it holds unless a strictly smaller key
    comes: on a list in index order it returns the element of least
    key, the one of least index when several share that key. *)
Lemma fold_min_first (key : nat * Z → Z) (rest : list (nat * Z)) (best m : nat * Z) :
  StronglySorted by_index (best :: rest) →
  In m (best :: rest) →
  (∀ c, In c (best :: rest) → key m <= key c) →
  (∀ c, In c (best :: rest) → key c = key m → (m.1 <= c.1)%nat) →
  fold_left (λ b c, if key c <? key b then c else b) rest best = m.
Proof.
  revert best. induction rest as [| c rest IH]; intros best Hs Hin Hmin Hties.
  - destruct Hin as [-> | []]. reflexivity.
  - simpl. apply StronglySorted_inv in Hs as [Hs Hf].
    apply StronglySorted_inv in Hs as Hs'. destruct Hs' as [Hs' Hf'].
    apply Forall_cons_1 in Hf as Hf2. destruct Hf2 as [Hbc Hf2].
    assert (∀ b', (b' = best ∨ b' = c) → (m = best → b' = best) → (m = c → b' = c) →
              fold_left (λ b c0, if key c0 <? key b then c0 else b) rest b' = m) as Hstep.
    { intros b' Hb' Hmb Hmc. apply IH.
      - constructor; [exact Hs' |]. destruct Hb' as [-> | ->]; assumption.
      - destruct Hin as [Hin | [Hin | Hin]];
          [left; rewrite <- Hin; apply Hmb; symmetry; exact Hin
          | left; rewrite <- Hin; apply Hmc; symmetry; exact Hin
          | right; exact Hin].
      - intros d [<- | Hd]; apply Hmin; [destruct Hb' as [-> | ->]; simpl; auto | simpl; auto].
      - intros d [<- | Hd]; apply Hties; [destruct Hb' as [-> | ->]; simpl; auto | simpl; auto]. }
    assert (by_index best c) as Hlt by exact Hbc. unfold by_index in Hlt.
    destruct (Z.ltb_spec (key c) (key best)) as [Hsmall | Hlarge].
    + apply Hstep; [right; reflexivity | | reflexivity].
      intros ->. pose proof (Hmin c (or_intror (or_introl eq_refl))). lia.
    + apply Hstep; [left; reflexivity | reflexivity |].
      intros ->. assert (key best = key c) as Heq.
      { pose proof (Hmin best (or_introl eq_refl)). lia. }
      pose proof (Hties best (or_introl eq_refl) Heq). lia.
Qed.

Lemma min_key_first (key : nat * Z → Z) (xs : list (nat * Z)) (m : nat * Z) :
  StronglySorted by_index xs →
  In m xs →
  (∀ c, In c xs → key m <= key c) →
  (∀ c, In c xs → key c = key m → (m.1 <= c.1)%nat) →
  py_min_key key xs = Ok m.
Proof.
  destruct xs as [| best rest]; intros Hs Hin Hmin Hties; [destruct Hin |].
  unfold py_min_key. f_equal. apply fold_min_first; assumption.
Qed.

Lemma fold_min_in {A : Type} (key : A → Z) (rest : list A) (best : A) :
  In (fold_left (λ u v : A, if key v <? key u then v else u) rest best) (best :: rest).
Proof.
  revert best. induction rest as [| a rest IH]; intros best; [left; reflexivity |].
  simpl. destruct (IH (if key a <? key best then a else best)) as [Heq | Hin].
  - rewrite <- Heq. destruct (key a <? key best); auto.
  - auto.
Qed.

Lemma enumerate_In payload (j : nat) (b : Z) :
  In (j, b) (enumerate payload) ↔ ∃ x, payload !! j = Some x ∧ b = byte_to_int x.
Proof.
  rewrite <- list_elem_of_In, list_elem_of_lookup. split.
  - intros [i Hi]. apply enumerate_lookup in Hi as (-> & Hx). exact Hx.
  - intros Hx. exists j. apply enumerate_lookup. auto.
Qed.

Lemma humidity_test (b : Z) :
  (0 <=? b) && (b <=? 100) && (3 <? b) = true ↔ 4 <= b <= 100.
Proof. rewrite !andb_true_iff, !Z.leb_le, Z.ltb_lt. lia. Qed.

(** The candidates of [_find_humidity]: the bytes in 4..100, in index
    order. *)
Lemma candidates_In payload (j : nat) (b : Z) :
  In (j, b) (List.filter (λ c : nat * Z, (0 <=? c.2) && (c.2 <=? 100) && (3 <? c.2))
                         (enumerate payload)) ↔
  ∃ x, payload !! j = Some x ∧ b = byte_to_int x ∧ 4 <= b <= 100.
Proof.
  rewrite filter_In, enumerate_In. simpl. rewrite humidity_test.
  split; [intros [(x & Hx & Hb) Hr]; eauto | intros (x & Hx & Hb & Hr); eauto].
Qed.

Lemma match_nonempty {A B : Type} (l : list A) (a b : B) :
  l ≠ [] → match l with [] => a | _ :: _ => b end = b.
Proof. destruct l; [congruence | reflexivity]. Qed.

Lemma nonempty_of_In {A : Type} (a : A) (l : list A) : In a l → l ≠ [].
Proof. intros Hin ->. destruct Hin. Qed.

Lemma filter_none {A : Type} (f : A → bool) (l : list A) :
  (∀ a, In a l → f a = false) → List.filter f l = [].
Proof.
  induction l as [| a l IH]; intros Hall; [reflexivity |].
  simpl. rewrite (Hall a (or_introl eq_refl)). apply IH. intros b Hb. apply Hall. right. exact Hb.
Qed.

(** X11. With a temperature index, [_find_humidity] returns the first
    byte in 4..100 that comes after it. *)
Theorem find_humidity_after (payload : list Byte.byte) (ti : Z) (idx : nat) (x : Byte.byte) :
  payload !! idx = Some x →
  4 <= byte_to_int x <= 100 →
  ti < Z.of_nat idx →
  (∀ (j : nat) y, ti < Z.of_nat j → (j < idx)%nat → payload !! j = Some y →
     ¬ (4 <= byte_to_int y <= 100)) →
  _find_humidity payload (Some ti) = Ok (Some (byte_to_int x, idx)).
Proof.
  intros Hx Hin Hti Hbetween. unfold _find_humidity.
  rewrite (nonempty_of_lookup _ _ _ Hx).
  set (cands := List.filter _ (enumerate payload)).
  assert (In (idx, byte_to_int x) cands) as Hc by (apply candidates_In; eauto).
  rewrite (match_nonempty cands) by (eapply nonempty_of_In; exact Hc).
  set (after := List.filter _ cands).
  assert (In (idx, byte_to_int x) after) as Ha.
  { apply filter_In. split; [exact Hc |]. simpl. apply Z.ltb_lt. exact Hti. }
  rewrite (match_nonempty after) by (eapply nonempty_of_In; exact Ha).
  rewrite (min_key_first _ after (idx, byte_to_int x)); [reflexivity | | exact Ha | |].
  - apply filter_sorted, filter_sorted, enumerate_sorted.
  - intros [j b] Hj. simpl. apply filter_In in Hj as [Hj Hlt]. simpl in Hlt.
    apply Z.ltb_lt in Hlt. apply candidates_In in Hj as (y & Hy & -> & Hr).
    destruct (le_lt_dec idx j) as [Hle | Hgt]; [lia |].
    destruct (Hbetween j y Hlt Hgt Hy Hr).
  - intros [j b] _ Heq. simpl in *. lia.
Qed.

Lemma find_humidity_after_witness :
  _find_humidity (bytes_of [41; 9; 2; 56; 95]%N) (Some 1) = Ok (Some (56, 3%nat)).
Proof.
  apply (find_humidity_after (bytes_of [41; 9; 2; 56; 95]%N) 1 3
           (default Byte.x00 (Byte.of_N 56))).
  - reflexivity.
  - vm_compute. split; discriminate.
  - lia.
  - intros j y Hlo Hhi Hy. assert (j = 2%nat) as -> by lia.
    simpl in Hy. injection Hy as <-. vm_compute. intros [H1 _]. apply H1. reflexivity.
Defined.

(** The distance of an index to the middle [len(payload) // 2]. *)
Definition to_middle (payload : list Byte.byte) (j : nat) : Z :=
  Z.abs (Z.of_nat j - Z.of_nat (length payload) / 2).

(** X12. Without a temperature index, or when no byte in 4..100 comes
    after it, [_find_humidity] returns the byte in 4..100 nearest to
    the middle of the payload, the earlier one of two equally near. *)
Theorem find_humidity_middle (payload : list Byte.byte) (temp_index : option Z)
    (idx : nat) (x : Byte.byte) :
  (∀ ti, temp_index = Some ti →
     ∀ (j : nat) y, payload !! j = Some y → 4 <= byte_to_int y <= 100 → Z.of_nat j <= ti) →
  payload !! idx = Some x →
  4 <= byte_to_int x <= 100 →
  (∀ (j : nat) y, payload !! j = Some y → 4 <= byte_to_int y <= 100 →
     to_middle payload idx < to_middle payload j ∨
     (to_middle payload idx = to_middle payload j ∧ (idx <= j)%nat)) →
  _find_humidity payload temp_index = Ok (Some (byte_to_int x, idx)).
Proof.
  intros Hnoafter Hx Hin Hnearest. unfold _find_humidity.
  rewrite (nonempty_of_lookup _ _ _ Hx).
  set (cands := List.filter _ (enumerate payload)).
  assert (In (idx, byte_to_int x) cands) as Hc by (apply candidates_In; eauto).
  rewrite (match_nonempty cands) by (eapply nonempty_of_In; exact Hc).
  assert (py_min_key (λ t : nat * Z, Z.abs (Z.of_nat t.1 - Z.of_nat (length payload) / 2)) cands
          = Ok (idx, byte_to_int x)) as Hmin.
  { apply min_key_first; [apply filter_sorted, enumerate_sorted | exact Hc | |].
    - intros [j b] Hj. simpl. apply candidates_In in Hj as (y & Hy & -> & Hr).
      destruct (Hnearest j y Hy Hr) as [Hlt | [Heq _]]; unfold to_middle in *; lia.
    - intros [j b] Hj Heq. simpl in *. apply candidates_In in Hj as (y & Hy & -> & Hr).
      destruct (Hnearest j y Hy Hr) as [Hlt | [_ Hle]]; unfold to_middle in *; lia. }
  destruct temp_index as [ti |].
  - rewrite filter_none.
    + rewrite Hmin. reflexivity.
    + intros [j b] Hj. simpl. apply candidates_In in Hj as (y & Hy & -> & Hr).
      apply Z.ltb_ge. exact (Hnoafter ti eq_refl j y Hy Hr).
  - rewrite Hmin. reflexivity.
Qed.

Lemma find_humidity_middle_witness :
  _find_humidity (bytes_of [41; 9; 200; 56; 95]%N) None = Ok (Some (9, 1%nat)).
Proof.
  apply (find_humidity_middle (bytes_of [41; 9; 200; 56; 95]%N) None 1
           (default Byte.x00 (Byte.of_N 9))).
  - intros ti Hti. discriminate Hti.
  - reflexivity.
  - vm_compute. split; discriminate.
  - intros j y Hy Hr.
    destruct j as [| [| [| [| [| j]]]]]; simpl in Hy; [| | | | | discriminate Hy];
      injection Hy as <-; vm_compute in Hr |- *.
    + left. reflexivity.
    + right. split; [reflexivity | lia].
    + destruct Hr as [_ Hr]. destruct Hr. reflexivity.
    + right. split; [reflexivity | lia].
    + left. reflexivity.
Defined.

Lemma min_key_In {A : Type} (key : A → Z) (xs : list A) :
  xs ≠ [] → ∃ a, py_min_key key xs = Ok a ∧ In a xs.
Proof.
  destruct xs as [| best rest]; [congruence |]. intros _.
  eexists. split; [reflexivity |]. apply fold_min_in.
Qed.

(** X13. [_find_humidity] never raises; it finds nothing exactly when
    no byte lies in 4..100 (the empty payload included); and what it
    returns is a byte of the payload in 4..100 with its own index. *)
Theorem find_humidity_result (payload : list Byte.byte) (temp_index : option Z) :
  ∃ r, _find_humidity payload temp_index = Ok r ∧
    (r = None ↔ ∀ (j : nat) y, payload !! j = Some y → ¬ (4 <= byte_to_int y <= 100)) ∧
    (∀ (b : Z) (idx : nat), r = Some (b, idx) →
       ∃ x, payload !! idx = Some x ∧ b = byte_to_int x ∧ 4 <= b <= 100).
Proof.
  unfold _find_humidity.
  destruct (Nat.eqb_spec (length payload) 0) as [Hempty | Hne].
  { exists None. split; [reflexivity |]. split; [| discriminate].
    split; [| reflexivity]. intros _ j y Hy. apply lookup_lt_Some in Hy. lia. }
  set (cands := List.filter _ (enumerate payload)).
  assert (∀ j b, In (j, b) cands ↔
            ∃ x, payload !! j = Some x ∧ b = byte_to_int x ∧ 4 <= b <= 100) as Hcands
    by (intros j b; apply candidates_In).
  destruct cands as [| c0 cs] eqn:Hcs.
  { exists None. split; [reflexivity |]. split; [| discriminate].
    split; [| reflexivity]. intros _ j y Hy Hr.
    apply (proj2 (Hcands j (byte_to_int y))). eauto. }
  assert (∀ l : list (nat * Z),
            (∀ c, In c l → In c (c0 :: cs)) → l ≠ [] →
            ∀ key, ∃ m, In m (c0 :: cs) ∧
              (chosen ← py_min_key key l; Ok (Some (py_int chosen.2, chosen.1)))
              = Ok (Some (m.2, m.1))) as Hpick.
  { intros l Hsub Hl key. destruct (min_key_In key l Hl) as (m & Hm & Hin).
    exists m. split; [apply Hsub, Hin |]. rewrite Hm. reflexivity. }
  assert (∃ m, In m (c0 :: cs) ∧
            match temp_index with
            | Some ti =>
                match List.filter (λ c : nat * Z, ti <? Z.of_nat c.1) (c0 :: cs) with
                | [] =>
                    chosen ← py_min_key
                      (λ t : nat * Z, Z.abs (Z.of_nat t.1 - Z.of_nat (length payload) / 2))
                      (c0 :: cs);
                    Ok (Some (py_int chosen.2, chosen.1))
                | _ :: _ =>
                    chosen ← py_min_key (λ t : nat * Z, Z.of_nat t.1)
                      (List.filter (λ c : nat * Z, ti <? Z.of_nat c.1) (c0 :: cs));
                    Ok (Some (py_int chosen.2, chosen.1))
                end
            | None =>
                chosen ← py_min_key
                  (λ t : nat * Z, Z.abs (Z.of_nat t.1 - Z.of_nat (length payload) / 2))
                  (c0 :: cs);
                Ok (Some (py_int chosen.2, chosen.1))
            end = Ok (Some (m.2, m.1))) as (m & Hm & Hrun).
  { destruct temp_index as [ti |].
    - destruct (List.filter (λ c : nat * Z, ti <? Z.of_nat c.1) (c0 :: cs)) as [| a after] eqn:Ha.
      + apply Hpick; [auto | discriminate].
      + apply Hpick; [| discriminate].
        intros c Hc. rewrite <- Ha in Hc. apply filter_In in Hc. tauto.
    - apply Hpick; [auto | discriminate]. }
  exists (Some (m.2, m.1)). split; [exact Hrun |].
  destruct m as [j b]. apply Hcands in Hm as (x & Hx & -> & Hr). simpl. split.
  - split; [discriminate |]. intros Hnone. destruct (Hnone j x Hx Hr).
  - intros b' idx' Heq. injection Heq as <- <-. eauto.
Qed.

End Humidity.

Section Temperature.

Implicit Types (payload : list Byte.byte) (a b : Byte.byte).

(** A 16-bit value read as two's complement. *)
Definition signed16 (u : Z) : Z := if 32768 <=? u then u - 65536 else u.

(** The raw values whose hundredth, resp. tenth, lies in -40..85. *)
Definition hundredths_ok (raw : Z) : bool := (-4000 <=? raw) && (raw <=? 8500).
Definition tenths_ok (raw : Z) : bool := (-400 <=? raw) && (raw <=? 850).

(** The range test of [_find_temperature]: [-40.0 <= temp <= 85.0]. *)
Definition plausible (temp : float) : bool :=
  PrimFloat.leb (-40)%float temp && PrimFloat.leb temp 85%float.

(** The raw value two adjacent bytes stand for, if any: the signed
    little-endian reading when it lies in -4000..8500, otherwise the
    signed big-endian reading when that one does. *)
Definition pair_raw (a b : Byte.byte) : option Z :=
  let little := signed16 (byte_to_int a + 256 * byte_to_int b) in
  let big := signed16 (byte_to_int b + 256 * byte_to_int a) in
  if hundredths_ok little then Some little
  else if hundredths_ok big then Some big
  else None.

(** [raw / 100.0], as a float. *)
Definition hundredth (raw : Z) : float := PrimFloat.div (py_float_of_int raw) 100%float.

(** [below d f acc]: [f] holds on the [2^d] integers whose bits above
    the lowest [d] are those of [acc]. *)
Fixpoint below (d : nat) (f : Z → bool) (acc : Z) : bool :=
  match d with
  | O => f acc
  | S d' => below d' f (2 * acc) && below d' f (2 * acc + 1)
  end.

Lemma below_spec (d : nat) (f : Z → bool) :
  ∀ acc n, below d f acc = true →
    acc * 2 ^ Z.of_nat d <= n < (acc + 1) * 2 ^ Z.of_nat d → f n = true.
Proof.
  induction d as [| d IH]; intros acc n Hall Hn; simpl in Hall.
  - change (2 ^ Z.of_nat 0) with 1 in Hn.
    assert (n = acc) as -> by lia. exact Hall.
  - apply andb_true_iff in Hall as [Hl Hr].
    rewrite Nat2Z.inj_succ, Z.pow_succ_r in Hn by lia.
    destruct (Z.lt_ge_cases n ((2 * acc + 1) * 2 ^ Z.of_nat d)).
    + apply (IH (2 * acc)); [exact Hl | lia].
    + apply (IH (2 * acc + 1)); [exact Hr | lia].
Qed.

(** On a 16-bit raw value, signed or not, the two float tests of the
    loop say what the integer ranges say. Checked on each value. *)
Definition tests_agree (raw : Z) : bool :=
  let x := py_float_of_int raw in
  Bool.eqb (plausible (PrimFloat.div x 100%float)) (hundredths_ok raw) &&
  Bool.eqb (plausible (PrimFloat.div x 10%float)) (tenths_ok raw).

Lemma all_tests_agree :
  below 16 tests_agree 0 = true ∧ below 15 (λ n, tests_agree (n - 32768)) 0 = true.
Proof. split; vm_compute; reflexivity. Qed.

Lemma tests_on_raw (raw : Z) :
  -32768 <= raw < 65536 →
  plausible (hundredth raw) = hundredths_ok raw ∧
  plausible (PrimFloat.div (py_float_of_int raw) 10%float) = tenths_ok raw.
Proof.
  intros Hr. destruct all_tests_agree as [Hpos Hneg].
  assert (tests_agree raw = true) as Hraw.
  { destruct (Z.lt_ge_cases raw 0) as [Hlt | Hge].
    - pose proof (below_spec 15 _ 0 (raw + 32768) Hneg) as Hc. cbv beta in Hc.
      replace (raw + 32768 - 32768) with raw in Hc by lia.
      apply Hc. change (2 ^ Z.of_nat 15) with 32768. lia.
    - apply (below_spec 16 _ 0 raw Hpos). change (2 ^ Z.of_nat 16) with 65536. lia. }
  unfold tests_agree in Hraw. apply andb_true_iff in Hraw as [H100 H10].
  apply Bool.eqb_prop in H100, H10. split; assumption.
Qed.

(** In -4000..8500, rounding to two decimals changes nothing and the
    result is still within -40..85. Checked on each value. *)
Definition round2_fixes (raw : Z) : bool :=
  PrimFloat.Leibniz.eqb (py_round2 (hundredth raw)) (hundredth raw)
  && plausible (py_round2 (hundredth raw)).

Lemma all_round2_fixes :
  below 14 (λ n, round2_fixes (n - 4096) || negb (hundredths_ok (n - 4096))) 0 = true.
Proof. vm_compute; reflexivity. Qed.

Lemma round2_on_raw (raw : Z) :
  hundredths_ok raw = true →
  py_round2 (hundredth raw) = hundredth raw ∧ plausible (py_round2 (hundredth raw)) = true.
Proof.
  intros Hok. pose proof Hok as Hr. unfold hundredths_ok in Hr.
  apply andb_true_iff in Hr as [Hlo Hhi]. apply Z.leb_le in Hlo, Hhi.
  pose proof (below_spec 14 _ 0 (raw + 4096) all_round2_fixes) as Hc. cbv beta in Hc.
  replace (raw + 4096 - 4096) with raw in Hc by lia.
  rewrite Hok, orb_false_r in Hc.
  assert (round2_fixes raw = true) as Hfix
    by (apply Hc; change (2 ^ Z.of_nat 14) with 16384; lia).
  unfold round2_fixes in Hfix. apply andb_true_iff in Hfix as [Heq Hpl].
  split; [apply FloatAxioms.Leibniz.eqb_spec, Heq | exact Hpl].
Qed.

Lemma truediv_16 (raw : Z) (scale : float) :
  -32768 <= raw < 65536 →
  PrimFloat.is_zero scale = false →
  py_truediv raw scale = Ok (PrimFloat.div (py_float_of_int raw) scale).
Proof.
  intros Hr Hz. unfold py_truediv.
  assert ((float_overflow <=? Z.abs raw) = false) as ->.
  { apply Z.leb_gt. apply Z.lt_trans with 65536; [lia | reflexivity]. }
  rewrite Hz. reflexivity.
Qed.

(** The innermost loop of [_find_temperature], over the two scales. *)
Definition try_scales (i : nat) (raw : Z) : outcome (option (float * nat)) :=
  for_first [100%float; 10%float] (λ scale,
    temp ← py_truediv raw scale;
    if PrimFloat.leb (-40)%float temp && PrimFloat.leb temp 85%float
    then Ok (Some (py_round2 temp, i))
    else Ok None).

(** Scale 10.0 is tried only when scale 100.0 has failed, and then it
    fails too. *)
Lemma scales_loop (raw : Z) (i : nat) :
  -32768 <= raw < 65536 →
  try_scales i raw
  = if hundredths_ok raw then Ok (Some (py_round2 (hundredth raw), i)) else Ok None.
Proof.
  intros Hr. destruct (tests_on_raw raw Hr) as [H100 H10].
  unfold try_scales, for_first.
  rewrite (truediv_16 raw 100%float Hr eq_refl), (truediv_16 raw 10%float Hr eq_refl).
  unfold mbind, outcome_bind.
  change (PrimFloat.leb (-40)%float (PrimFloat.div (py_float_of_int raw) 100%float)
          && PrimFloat.leb (PrimFloat.div (py_float_of_int raw) 100%float) 85%float)
    with (plausible (hundredth raw)).
  change (PrimFloat.leb (-40)%float (PrimFloat.div (py_float_of_int raw) 10%float)
          && PrimFloat.leb (PrimFloat.div (py_float_of_int raw) 10%float) 85%float)
    with (plausible (PrimFloat.div (py_float_of_int raw) 10%float)).
  rewrite H100, H10.
  destruct (hundredths_ok raw) eqn:Hok; [reflexivity |].
  assert (tenths_ok raw = false) as ->; [| reflexivity].
  unfold hundredths_ok, tenths_ok in *.
  apply leb_range_false in Hok. apply leb_range_false. lia.
Qed.

Lemma from_bytes_pair (a b : Byte.byte) :
  int_from_bytes [a; b] Little true = signed16 (byte_to_int a + 256 * byte_to_int b) ∧
  int_from_bytes [a; b] Little false = byte_to_int a + 256 * byte_to_int b ∧
  int_from_bytes [a; b] Big true = signed16 (byte_to_int b + 256 * byte_to_int a) ∧
  int_from_bytes [a; b] Big false = byte_to_int b + 256 * byte_to_int a.
Proof.
  unfold int_from_bytes, signed16.
  change (reverse [a; b]) with [b; a].
  change (8 * Z.of_nat (length [a; b])) with 16.
  change (0 <? 16) with true. change (2 ^ (16 - 1)) with 32768. change (2 ^ 16) with 65536.
  unfold le_value. rewrite !Z.mul_0_r, !Z.add_0_r. simpl. repeat split; reflexivity.
Qed.

Lemma signed16_range (u : Z) : 0 <= u < 65536 → -32768 <= signed16 u < 32768.
Proof. intros Hu. unfold signed16. destruct (Z.leb_spec 32768 u); lia. Qed.

(** What is unsigned is never chosen: when the signed reading is out of
    -4000..8500, so is the unsigned one. *)
Lemma unsigned_not_ok (u : Z) :
  0 <= u < 65536 → hundredths_ok (signed16 u) = false → hundredths_ok u = false.
Proof.
  unfold hundredths_ok, signed16. intros Hu Hs.
  apply leb_range_false in Hs. apply leb_range_false.
  destruct (Z.leb_spec 32768 u); lia.
Qed.

Lemma pair_sum_range (a b : Byte.byte) : 0 <= byte_to_int a + 256 * byte_to_int b < 65536.
Proof. pose proof (byte_to_int_range a). pose proof (byte_to_int_range b). lia. Qed.

(** The body of the outer loop at an index that has a next byte. *)
Lemma temperature_body (a b : Byte.byte) (i : nat) :
  for_first [Little; Big] (λ order,
    for_first [true; false] (λ signed,
      let raw := int_from_bytes [a; b] order signed in
      for_first [100%float; 10%float] (λ scale,
        temp ← py_truediv raw scale;
        if PrimFloat.leb (-40)%float temp && PrimFloat.leb temp 85%float
        then Ok (Some (py_round2 temp, i))
        else Ok None)))
  = match pair_raw a b with
    | Some raw => Ok (Some (py_round2 (hundredth raw), i))
    | None => Ok None
    end.
Proof.
  destruct (from_bytes_pair a b) as (Hls & Hlu & Hbs & Hbu).
  pose proof (pair_sum_range a b) as Hl. pose proof (pair_sum_range b a) as Hb.
  pose proof (signed16_range _ Hl) as Hsl. pose proof (signed16_range _ Hb) as Hsb.
  change (for_first [Little; Big] (λ order,
            for_first [true; false] (λ signed,
              try_scales i (int_from_bytes [a; b] order signed)))
          = match pair_raw a b with
            | Some raw => Ok (Some (py_round2 (hundredth raw), i))
            | None => Ok None
            end).
  cbn [for_first]. rewrite Hls, Hlu, Hbs, Hbu.
  rewrite !scales_loop by lia. unfold pair_raw. cbv zeta.
  destruct (hundredths_ok (signed16 (byte_to_int a + 256 * byte_to_int b))) eqn:H1;
    [reflexivity |].
  rewrite (unsigned_not_ok _ Hl H1).
  destruct (hundredths_ok (signed16 (byte_to_int b + 256 * byte_to_int a))) eqn:H2;
    [reflexivity |].
  rewrite (unsigned_not_ok _ Hb H2). reflexivity.
Qed.

Lemma slice_pair payload (i : nat) (a b : Byte.byte) :
  payload !! i = Some a → payload !! S i = Some b → slice payload i (i + 2) = [a; b].
Proof.
  intros Ha Hb. unfold slice.
  replace (i + 2 - i)%nat with 2%nat by lia.
  rewrite (drop_S _ _ _ Ha), (drop_S _ _ _ Hb). reflexivity.
Qed.

Lemma pair_raw_ok (a b : Byte.byte) (raw : Z) :
  pair_raw a b = Some raw → hundredths_ok raw = true.
Proof.
  unfold pair_raw. cbv zeta.
  destruct (hundredths_ok (signed16 (byte_to_int a + 256 * byte_to_int b))) eqn:H1;
    [congruence |].
  destruct (hundredths_ok (signed16 (byte_to_int b + 256 * byte_to_int a))) eqn:H2;
    [congruence | discriminate].
Qed.

(** The outer loop body at index [i], for a payload that has bytes at
    [i] and [i + 1]. *)
Lemma temperature_at payload (i : nat) (a b : Byte.byte) :
  payload !! i = Some a → payload !! S i = Some b →
  for_first [Little; Big] (λ order,
    for_first [true; false] (λ signed,
      let raw := int_from_bytes (slice payload i (i + 2)) order signed in
      for_first [100%float; 10%float] (λ scale,
        temp ← py_truediv raw scale;
        if PrimFloat.leb (-40)%float temp && PrimFloat.leb temp 85%float
        then Ok (Some (py_round2 temp, i))
        else Ok None)))
  = match pair_raw a b with
    | Some raw => Ok (Some (hundredth raw, i))
    | None => Ok None
    end.
Proof.
  intros Ha Hb. rewrite (slice_pair _ _ _ _ Ha Hb), temperature_body.
  destruct (pair_raw a b) as [raw |] eqn:Hraw; [| reflexivity].
  rewrite (proj1 (round2_on_raw raw (pair_raw_ok _ _ _ Hraw))). reflexivity.
Qed.

Lemma range_lookup (n i j : nat) : seq 0 n !! i = Some j ↔ j = i ∧ (i < n)%nat.
Proof. rewrite lookup_seq. lia. Qed.

(** X14. [_find_temperature] stops at the first index whose two bytes
    read as a signed 16-bit value within -4000..8500, little-endian
    first and big-endian second, and returns that value divided by
    100.0, which lies in -40.0..85.0: the unsigned readings and the
    scale 10.0 never decide, and rounding to two decimals changes
    nothing. *)
Theorem find_temperature_first (payload : list Byte.byte) (i : nat) (a b : Byte.byte) (raw : Z) :
  payload !! i = Some a →
  payload !! S i = Some b →
  pair_raw a b = Some raw →
  (∀ (j : nat) a' b', (j < i)%nat → payload !! j = Some a' → payload !! S j = Some b' →
     pair_raw a' b' = None) →
  _find_temperature payload = Ok (Some (hundredth raw, i)) ∧
  -4000 <= raw <= 8500 ∧
  plausible (hundredth raw) = true.
Proof.
  intros Ha Hb Hraw Hbefore.
  pose proof (pair_raw_ok _ _ _ Hraw) as Hok.
  split; [| split].
  - unfold _find_temperature. rewrite (nonempty_of_lookup _ _ _ Ha).
    pose proof (lookup_lt_Some _ _ _ Hb) as Hlen.
    apply (for_first_at _ _ i i (hundredth raw, i)).
    + apply range_lookup. lia.
    + etransitivity; [exact (temperature_at _ _ _ _ Ha Hb) |]. rewrite Hraw. reflexivity.
    + intros k j Hk Hj. apply range_lookup in Hj as [-> Hkn].
      destruct (lookup_lt_is_Some_2 payload k) as [a' Ha']; [lia |].
      destruct (lookup_lt_is_Some_2 payload (S k)) as [b' Hb']; [lia |].
      etransitivity; [exact (temperature_at _ _ _ _ Ha' Hb') |].
      rewrite (Hbefore k a' b' Hk Ha' Hb'). reflexivity.
  - apply leb_range. exact Hok.
  - destruct (round2_on_raw raw Hok) as [Heq Hpl]. rewrite Heq in Hpl. exact Hpl.
Qed.

Lemma find_temperature_first_witness :
  _find_temperature (bytes_of [0x40; 0x40; 0x29; 0x09; 56]%N) = Ok (Some (hundredth 2345, 2%nat)) ∧
  -4000 <= 2345 <= 8500 ∧
  plausible (hundredth 2345) = true.
Proof.
  apply (find_temperature_first (bytes_of [0x40; 0x40; 0x29; 0x09; 56]%N) 2
           (default Byte.x00 (Byte.of_N 0x29)) (default Byte.x00 (Byte.of_N 0x09)) 2345).
  - reflexivity.
  - reflexivity.
  - vm_compute. reflexivity.
  - intros j a' b' Hj Ha' Hb'.
    destruct j as [| [| j]]; [| | lia]; simpl in Ha', Hb';
      injection Ha' as <-; injection Hb' as <-; vm_compute; reflexivity.
Defined.

(** X15. [_find_temperature] never raises; it finds nothing exactly
    when no two adjacent bytes read, either way round, as a signed
    value within -4000..8500 (so always for fewer than two bytes); and
    what it returns is such a value divided by 100.0, with the index of
    its first byte. *)
Theorem find_temperature_result (payload : list Byte.byte) :
  ∃ r, _find_temperature payload = Ok r ∧
    (r = None ↔
     ∀ (j : nat) a b, payload !! j = Some a → payload !! S j = Some b → pair_raw a b = None) ∧
    (∀ (t : float) (i : nat), r = Some (t, i) →
       ∃ a b raw, payload !! i = Some a ∧ payload !! S i = Some b ∧
         pair_raw a b = Some raw ∧ t = hundredth raw ∧ plausible t = true).
Proof.
  unfold _find_temperature.
  destruct (Nat.eqb_spec (length payload) 0) as [Hempty | Hne].
  { exists None. split; [reflexivity |]. split; [| discriminate].
    split; [| reflexivity]. intros _ j a b Ha. apply lookup_lt_Some in Ha. lia. }
  set (body := λ i : nat, for_first [Little; Big] _).
  assert (∀ (k i : nat), seq 0 (length payload - 1) !! k = Some i →
            ∃ a b, payload !! i = Some a ∧ payload !! S i = Some b ∧
              body i = match pair_raw a b with
                       | Some raw => Ok (Some (hundredth raw, i))
                       | None => Ok None
                       end) as Hbody.
  { intros k i Hk. apply range_lookup in Hk as [-> Hkn].
    destruct (lookup_lt_is_Some_2 payload k) as [a Ha]; [lia |].
    destruct (lookup_lt_is_Some_2 payload (S k)) as [b Hb]; [lia |].
    exists a, b. repeat split; try assumption. apply (temperature_at _ _ _ _ Ha Hb). }
  destruct (for_first_cases (seq 0 (length payload - 1)) body)
    as [[Hnone Hall] | (k & i & r & Hret & Hk & Hi & _)].
  { intros k i Hk. destruct (Hbody k i Hk) as (a & b & _ & _ & ->).
    destruct (pair_raw a b); eauto. }
  - exists None. split; [exact Hnone |]. split; [| discriminate].
    split; [| reflexivity]. intros _ j a b Ha Hb.
    pose proof (lookup_lt_Some _ _ _ Hb) as Hlen.
    assert (seq 0 (length payload - 1) !! j = Some j) as Hj by (apply range_lookup; lia).
    destruct (Hbody j j Hj) as (a' & b' & Ha' & Hb' & Heq).
    assert (a' = a) as -> by congruence. assert (b' = b) as -> by congruence.
    rewrite (Hall j j Hj) in Heq. destruct (pair_raw a b); [discriminate Heq | reflexivity].
  - destruct (Hbody k i Hk) as (a & b & Ha & Hb & Heq).
    rewrite Hi in Heq. destruct (pair_raw a b) as [raw |] eqn:Hraw; [| discriminate Heq].
    apply Ok_inj in Heq. injection Heq as ->.
    exists (Some (hundredth raw, i)). split; [exact Hret |]. split.
    + split; [discriminate |]. intros Hnone. rewrite (Hnone i a b Ha Hb) in Hraw. discriminate Hraw.
    + intros t i' Heq. injection Heq as <- <-. exists a, b, raw.
      repeat split; try assumption.
      destruct (round2_on_raw raw (pair_raw_ok _ _ _ Hraw)) as [Hfix Hpl].
      rewrite Hfix in Hpl. exact Hpl.
Qed.

End Temperature.

(* ===================================================================== *)
(** ** [parse] on arbitrary objects *)
(* ===================================================================== *)

Section AnyInput.

Implicit Types (service_info : gmap string Objects.attribute) (h : heap).

(** The payload [Objects.parse] gets to look at, or what is raised on
    the way to it. *)
Definition payload_any service_info : Objects.result (option (list Byte.byte)) :=
  match Objects.getattr service_info "manufacturer_data" with
  | Objects.Raised r => Objects.Raised r
  | Objects.Done mfg =>
      match Objects.as_dict mfg with
      | Some items =>
          match Objects.dict_lookup items 9545 with
          | Some value =>
              match Objects._as_bytes value with
              | Objects.Done payload => Objects.Done (Some payload)
              | Objects.Raised r => Objects.Raised r
              end
          | None => Objects.Done None
          end
      | None => Objects.Done None
      end
  end.



(** An object whose [manufacturer_data] getter raises an [Exception]. *)
Definition failing_getter : gmap string Objects.attribute :=
  {[ "manufacturer_data" := Objects.Property (Objects.UserException "RuntimeError") ]}.

Lemma setitem_last_any {R} h (d : gmap string pyval) (key : string) (value : pyval) :
  @Objects.dict_setitem R (length h) key value (h ++ [d])
  = (Objects.Next tt, h ++ [<[key := value]> d]).
Proof.
  unfold Objects.dict_setitem. f_equal.
  rewrite <- (Nat.add_0_r (length h)) at 1.
  rewrite alter_app_r. reflexivity.
Qed.

Lemma fresh_return_any (A : Type) (hp : heap) :
  @mbind (Objects.stmt loc) _ loc A (λ d, Objects.return_ d) Objects.new_dict (hp ++ [∅])
  = (Objects.Return (S (length hp)), hp ++ [∅; ∅]).
Proof.
  unfold mbind, Objects.stmt_bind, Objects.new_dict, Objects.return_.
  rewrite length_app, Nat.add_comm, <- app_assoc. reflexivity.
Qed.

(** [_as_bytes] raises only what an instance's [__bytes__] raised, and
    only when that is not an [Exception]. *)
Lemma as_bytes_any_raised (value : Objects.entry) (r : Objects.raised) :
  Objects._as_bytes value = Objects.Raised r →
  Objects.is_Exception r = false ∧ value = Objects.Instance (Objects.Raised r).
Proof.
  destruct value as [v | on_bytes]; simpl.
  - destruct v; simpl; try discriminate;
      match goal with |- context [Objects.lift ?o] => destruct o end; simpl; discriminate.
  - destruct on_bytes as [bs | r']; simpl; [discriminate |].
    destruct (Objects.is_Exception r') eqn:Hr'; [discriminate |].
    intros Heq. injection Heq as <-. auto.
Qed.

(** Every run of [Objects.parse], from every heap. *)
Lemma parse_any_run service_info h :
  Objects.parse service_info h =
    match payload_any service_info with
    | Objects.Raised r =>
        if Objects.is_Exception r then (Objects.Done (S (length h)), h ++ [∅; ∅])
        else (Objects.Raised r, h ++ [∅])
    | Objects.Done None => (Objects.Done (S (length h)), h ++ [∅; ∅])
    | Objects.Done (Some payload) =>
        match fields_of payload with
        | Some f => (Objects.Done (length h), h ++ [reading_of f])
        | None => (Objects.Done (S (length h)), h ++ [∅; ∅])
        end
    end.
Proof.
  unfold payload_any, Objects.parse, Objects.call.
  unfold mbind at 1. unfold Objects.stmt_bind at 1. unfold Objects.new_dict at 1.
  unfold mbind at 1. unfold Objects.stmt_bind at 1. unfold Objects.try_except at 1.
  unfold mbind at 1. unfold Objects.stmt_bind at 1.
  destruct (Objects.getattr service_info "manufacturer_data") as [mfg | r]; simpl.
  2: { destruct (Objects.is_Exception r); [| reflexivity].
       rewrite fresh_return_any. reflexivity. }
  destruct (Objects.as_dict mfg) as [items |];
    [| unfold mret, Objects.stmt_ret; rewrite fresh_return_any; reflexivity].
  unfold Objects.when at 1, Objects.dict_contains, Objects.dict_get.
  destruct (Objects.dict_lookup items 9545) as [value |];
    [| unfold mret, Objects.stmt_ret; rewrite fresh_return_any; reflexivity].
  unfold mbind at 1. unfold Objects.stmt_bind at 1.
  destruct (Objects._as_bytes value) as [payload | r] eqn:Hv; simpl.
  2: { destruct (as_bytes_any_raised _ _ Hv) as [-> _]. reflexivity. }
  destruct (fields_of payload) as [f |] eqn:Hf.
  - destruct (fields_of_lookup payload f Hf) as (H4 & H5 & H6 & H7 & H8 & Hlen).
    unfold Objects.when.
    assert (negb (length payload =? 0)%nat && (8 <? length payload)%nat = true) as ->.
    { apply andb_true_iff. split.
      - apply negb_true_iff, Nat.eqb_neq. lia.
      - apply Nat.ltb_lt. exact Hlen. }
    unfold Objects.try_except, mbind, Objects.stmt_bind.
    rewrite (getitem_lookup _ _ _ H7), (getitem_lookup _ _ _ H6),
      (getitem_lookup _ _ _ H5), (getitem_lookup _ _ _ H4), (getitem_lookup _ _ _ H8).
    unfold Objects.lift at 1 2 3 4 5. unfold Objects.eval at 1 2 3 4 5.
    fold (raw16 (x7 f) (x6 f)). fold (raw16 (x5 f) (x4 f)).
    rewrite (truediv_field _ (raw16_range (x7 f) (x6 f))).
    rewrite (truediv_field _ (raw16_range (x5 f) (x4 f))).
    unfold Objects.lift, Objects.eval. rewrite !setitem_last_any. reflexivity.
  - assert ((8 <? length payload)%nat = false) as Hshort.
    { apply Nat.ltb_ge. destruct (le_lt_dec (length payload) 8) as [Hle | Hgt]; [exact Hle |].
      destruct (fields_of_long _ Hgt) as [f Hf']. congruence. }
    unfold Objects.when. rewrite Hshort, andb_false_r.
    unfold mret, Objects.stmt_ret. rewrite fresh_return_any. reflexivity.
Qed.

(** On built-in data values [Objects.parse] is [Parser.parse]. *)
Lemma payload_any_plain (service_info : gmap string pyval) :
  payload_any (Objects.plain service_info) = Objects.Done (payload_of service_info).
Proof.
  unfold payload_any, payload_of, Objects.plain, Objects.getattr, getattr.
  rewrite lookup_fmap.
  destruct (service_info !! "manufacturer_data") as [v |]; simpl; [| reflexivity].
  destruct v as [| | | | | | | items]; simpl; try reflexivity.
  assert (∀ k, Objects.dict_lookup (map (λ kv : Z * pyval, (kv.1, Objects.Data kv.2)) items) k
               = Objects.Data <$> dict_lookup items k) as Hlk.
  { intros k. induction items as [| [k' v'] items IH]; simpl; [reflexivity |].
    destruct (k' =? k); [reflexivity | exact IH]. }
  rewrite Hlk. destruct (dict_lookup items 9545) as [v |]; simpl; [| reflexivity].
  destruct v; simpl; try reflexivity;
    match goal with |- context [Objects.lift ?o] => destruct o end; reflexivity.
Qed.

Lemma parse_plain (service_info : gmap string pyval) (h : heap) :
  Objects.parse (Objects.plain service_info) h =
    match parse service_info h with
    | (Ok l, h') => (Objects.Done l, h')
    | (Err e, h') => (Objects.Raised (Objects.Builtin e), h')
    end.
Proof.
  rewrite parse_any_run, payload_any_plain, parse_run. unfold decoded.
  destruct (payload_of service_info) as [payload |]; [| reflexivity].
  destruct (fields_of payload); reflexivity.
Qed.



(** Both handlers at work: a getter that raises an [Exception], and a
    value whose [__bytes__] raises one, give the empty dict. *)
Example exceptions_are_caught :
  Objects.parse failing_getter [] = (Objects.Done 1%nat, [∅; ∅]) ∧
  Objects.parse
    {[ "manufacturer_data" :=
         Objects.Mapping
           [(9545, Objects.Instance (Objects.Raised (Objects.UserException "OSError")))] ]} []
  = (Objects.Done 1%nat, [∅; ∅]).
Proof. split; rewrite parse_any_run; reflexivity. Qed.

End AnyInput.
